(** * Vector-search post-processing pipeline (Ecommerce-Dressia, [nextn])

    Shallow embedding of the two Python entry points

    - [nextn/cloud_function_vector_search/main.py]  (module [VectorSearch])
    - [nextn/functions/vector_search_proxy/main.py] (module [Proxy])

    together with the Python primitives they rely on (module [Py]).

    Modelling conventions.
    - Python values (JSON payloads, metadata values, attribute values read
      with [getattr(.., None)]) are the inductive type [Py.pyval].
    - Python [float]s are idealised as exact rationals [Q]: rounding,
      infinities and NaN of IEEE-754 are outside the model.
    - Python [str] is a byte string ([String.string]); [len] and [lower]
      are the ASCII ones.
    - A [dict] is an association list read by first match and written in
      place ([dict_get], [dict_set]).
    - The few interpreter primitives whose exact output is irrelevant here
      ([str()] of a non-string, [int()]/[float()] of a string, UTF-8
      decoding, the square-root based L2 normalisation) are fields of a
      [Py.Runtime] record.
    - The Vertex AI match service is an oracle; each handler returns its
      HTTP outcome together with the list of calls it made to the oracle. *)

From Stdlib Require Import ZArith QArith Qabs List String Ascii Bool DecimalString.
From Stdlib Require Import Lia Lqa Permutation Sorted.
Import ListNotations.

Set Warnings "-register-all".
Local Open Scope string_scope.

(* ================================================================== *)
(** ** Python primitives *)
(* ================================================================== *)

Module Py.

Inductive pyval : Type :=
| PNone
| PBool (b : bool)
| PNum (q : Q)
| PStr (s : string)
| PBytes (b : string)
| PList (l : list pyval)
| PDict (kvs : list (string * pyval)).

Definition dict : Type := list (string * pyval).

(** Interpreter primitives left abstract. *)
Record Runtime : Type := {
  py_repr : pyval -> string;            (* str(v) for v not a str *)
  int_of_str : string -> option Z;      (* int(s), None = ValueError *)
  float_of_str : string -> option Q;    (* float(s), None = ValueError *)
  utf8_decode : string -> option string;(* b.decode("utf-8"), None = UnicodeDecodeError *)
  l2_normalize : pyval -> option pyval  (* _l2_normalize, None = exception *)
}.

Definition str_nonempty (s : string) : bool :=
  match s with EmptyString => false | String _ _ => true end.

Definition list_nonempty {A : Type} (l : list A) : bool :=
  match l with [] => false | _ :: _ => true end.

(** Truth value testing ([bool(v)], [if v], [not v], [a or b]). *)
Definition truthy (v : pyval) : bool :=
  match v with
  | PNone => false
  | PBool b => b
  | PNum q => negb (Qeq_bool q 0)
  | PStr s => str_nonempty s
  | PBytes b => str_nonempty b
  | PList l => list_nonempty l
  | PDict kvs => list_nonempty kvs
  end.

Definition py_or (a b : pyval) : pyval := if truthy a then a else b.

Definition is_none (v : pyval) : bool :=
  match v with PNone => true | _ => false end.

(** [d.get(k)] and [d.get(k, default)]. *)
Fixpoint dict_get_default (d : dict) (k : string) (dflt : pyval) : pyval :=
  match d with
  | [] => dflt
  | (k', v) :: d' => if String.eqb k' k then v else dict_get_default d' k dflt
  end.

Definition dict_get (d : dict) (k : string) : pyval := dict_get_default d k PNone.

(** [d[k] = v]. *)
Fixpoint dict_set (d : dict) (k : string) (v : pyval) : dict :=
  match d with
  | [] => [(k, v)]
  | (k', v') :: d' =>
      if String.eqb k' k then (k, v) :: d' else (k', v') :: dict_set d' k v
  end.

(** [d.update(e)]. *)
Definition dict_update (d e : dict) : dict :=
  fold_left (fun o kv => dict_set o (fst kv) (snd kv)) e d.

(** [abs(v)]; [None] stands for the [TypeError] of a non-numeric operand. *)
Definition py_abs (v : pyval) : option Q :=
  match v with
  | PNum q => Some (Qabs q)
  | PBool b => Some (if b then 1%Q else 0%Q)
  | _ => None
  end.

(** [len(v)]; [None] stands for the [TypeError] of an unsized operand. *)
Definition py_len (v : pyval) : option nat :=
  match v with
  | PStr s => Some (String.length s)
  | PBytes b => Some (String.length b)
  | PList l => Some (List.length l)
  | PDict kvs => Some (List.length kvs)
  | _ => None
  end.

(** [int(v)]: truncation towards zero on numbers. *)
Definition py_int (rt : Runtime) (v : pyval) : option Z :=
  match v with
  | PNum q => Some (Z.quot (Qnum q) (Z.pos (Qden q)))
  | PBool b => Some (if b then 1%Z else 0%Z)
  | PStr s => int_of_str rt s
  | PBytes b => int_of_str rt b
  | _ => None
  end.

(** [float(v)]. *)
Definition py_float (rt : Runtime) (v : pyval) : option Q :=
  match v with
  | PNum q => Some q
  | PBool b => Some (if b then 1%Q else 0%Q)
  | PStr s => float_of_str rt s
  | PBytes b => float_of_str rt b
  | _ => None
  end.

(** [str(v)]. *)
Definition py_str (rt : Runtime) (v : pyval) : string :=
  match v with
  | PStr s => s
  | _ => py_repr rt v
  end.

Definition isinstance_list (v : pyval) : bool :=
  match v with PList _ => true | _ => false end.

Definition isinstance_dict (v : pyval) : bool :=
  match v with PDict _ => true | _ => false end.

(** [s.lower()] on ASCII letters. *)
Definition lower_ascii (c : ascii) : ascii :=
  let n := nat_of_ascii c in
  if (65 <=? n)%nat && (n <=? 90)%nat then ascii_of_nat (n + 32) else c.

Fixpoint lower (s : string) : string :=
  match s with
  | EmptyString => EmptyString
  | String c s' => String (lower_ascii c) (lower s')
  end.

(** [s.startswith(p)]. *)
Fixpoint startswith (s p : string) {struct p} : bool :=
  match p with
  | EmptyString => true
  | String c p' =>
      match s with
      | EmptyString => false
      | String d s' => Ascii.eqb c d && startswith s' p'
      end
  end.

(** [s[n:]]. *)
Fixpoint slice_from (n : nat) (s : string) : string :=
  match n with
  | O => s
  | S n' => match s with EmptyString => EmptyString | String _ s' => slice_from n' s' end
  end.

(** [s.split(sep, 1)] for a one-character separator: one part when [sep]
    does not occur, otherwise the text before and after its first
    occurrence. *)
Fixpoint split1 (sep : ascii) (s : string) : list string :=
  match s with
  | EmptyString => [EmptyString]
  | String c s' =>
      if Ascii.eqb c sep then [EmptyString; s']
      else match split1 sep s' with
           | a :: rest => String c a :: rest
           | [] => []
           end
  end.

(** [str(n)] for an [int]. *)
Definition str_of_int (n : Z) : string := NilZero.string_of_int (Z.to_int n).

(** [x < y] on floats. *)
Definition py_lt (x y : Q) : bool := negb (Qle_bool y x).

(** [l.sort(key=key, reverse=True)]: a stable sort by decreasing key.
    An element is inserted in front of the first element whose key is
    not larger than its own, so that elements with equal keys keep the
    order they had. *)
Fixpoint insert_desc {A : Type} (key : A -> Q) (x : A) (l : list A) : list A :=
  match l with
  | [] => [x]
  | y :: l' => if py_lt (key x) (key y) then y :: insert_desc key x l' else x :: y :: l'
  end.

Definition sort_desc {A : Type} (key : A -> Q) (l : list A) : list A :=
  fold_right (insert_desc key) [] l.

(** The order of a list sorted by decreasing key. *)
Definition desc {A : Type} (key : A -> Q) (x y : A) : Prop := (key y <= key x)%Q.

(** Membership of a character in a string. *)
Fixpoint occurs (sep : ascii) (s : string) : bool :=
  match s with
  | EmptyString => false
  | String c s' => Ascii.eqb c sep || occurs sep s'
  end.

End Py.

Import Py.

(* ================================================================== *)
(** ** The external index service and what it returns *)
(* ================================================================== *)

(** An [IndexDatapoint] as the handlers read it: every attribute is read
    with [getattr(.., None)], so a missing attribute is [PNone]. *)
Record datapoint : Type := {
  dp_datapoint_id : pyval;
  dp_id : pyval;
  dp_metadata : pyval
}.

(** One neighbor of a [FindNeighborsResponse]. *)
Record neighbor : Type := {
  nb_distance : pyval;
  nb_datapoint : option datapoint;
  nb_datapoint_id : pyval;
  nb_id : pyval
}.

(** Outcome of [client.find_neighbors]. [nearest_neighbors] is [None]
    when the attribute is missing; a group is [None] when its
    [neighbors] attribute cannot be read. *)
Inductive upstream : Type :=
| UpPermissionDenied (msg : string)
| UpError (msg : string)
| UpResponse (nearest_neighbors : option (list (option (list neighbor)))).

(** The match service: queried with a feature vector, a neighbor count
    and the [return_full_datapoint] flag. *)
Definition service : Type := pyval -> Z -> bool -> upstream.

(** A call made to the match service. *)
Inductive event : Type :=
| FindNeighbors (feature_vector : pyval) (neighbor_count : Z) (return_full_datapoint : bool).

(** An incoming HTTP request: its method and [get_json(silent=True)]. *)
Record request : Type := {
  req_method : string;
  req_json : option dict
}.

(* ================================================================== *)
(** ** [cloud_function_vector_search/main.py] *)
(* ================================================================== *)

Module VectorSearch.

Record Config : Type := {
  DEFAULT_NEIGHBOR_COUNT : Z
}.

(** One element of the returned list: [{"id": .., "distance": ..}], the
    distance key being optional. *)
Record entry : Type := {
  e_id : string;
  e_distance : option Q
}.

(** Exceptions that can reach the handler's [except Exception]. *)
Inductive exn : Type :=
| ExnConversion               (* int(), float() or _l2_normalize failed *)
| ExnAttribute                (* an attribute of the response is missing *)
| ExnUpstream (msg : string). (* the match service raised *)

Inductive body : Type :=
| BodyEmpty
| BodyError (error : string) (detail : option exn)
| BodyResults (results : list entry).

Definition response : Type := (body * Z)%type.

Section Handlers.

Variable rt : Runtime.
Variable cfg : Config.
Variable svc : service.

(** Body of the loop over [neighbors] (lines 64-74); [None] is the
    exception raised by [float(distance)]. *)
Definition add_neighbor (acc : option (list entry)) (nb : neighbor)
  : option (list entry) :=
  match acc with
  | None => None
  | Some results =>
      let neigh_id := nb_id nb in
      let distance := nb_distance nb in
      if is_none neigh_id then Some results
      else if negb (is_none distance) then
        match py_float rt distance with
        | Some d => Some (results ++ [{| e_id := py_str rt neigh_id; e_distance := Some d |}])%list
        | None => None
        end
      else Some (results ++ [{| e_id := py_str rt neigh_id; e_distance := None |}])%list
  end.

Definition collect_neighbors (neighbors : list neighbor) : option (list entry) :=
  fold_left add_neighbor neighbors (Some []).

Definition find_similar_products (feature_vector : pyval) (neighbor_count : Z)
    (normalize : bool) : (exn + list entry) * list event :=
  match (if normalize then l2_normalize rt feature_vector else Some feature_vector) with
  | None => (inl ExnConversion, [])
  | Some feature_vector =>
      let calls := [FindNeighbors feature_vector neighbor_count false] in
      match svc feature_vector neighbor_count false with
      | UpPermissionDenied msg => (inl (ExnUpstream msg), calls)
      | UpError msg => (inl (ExnUpstream msg), calls)
      | UpResponse None => (inl ExnAttribute, calls)
      | UpResponse (Some []) => (inr [], calls)
      | UpResponse (Some (None :: _)) => (inl ExnAttribute, calls)
      | UpResponse (Some (Some neighbors :: _)) =>
          match collect_neighbors neighbors with
          | Some results => (inr results, calls)
          | None => (inl ExnConversion, calls)
          end
      end
  end.

Definition bad_request (msg : string) : response * list event :=
  ((BodyError msg None, 400%Z), []).

Definition http_vector_search (req : request) : response * list event :=
  if String.eqb (req_method req) "OPTIONS" then ((BodyEmpty, 204%Z), [])
  else
    match req_json req with
    | None => bad_request "Request body must be JSON"
    | Some request_json =>
        if negb (list_nonempty request_json) then bad_request "Request body must be JSON"
        else
          let feature_vector := dict_get request_json "feature_vector" in
          if is_none feature_vector then
            bad_request "Missing 'feature_vector' in request body"
          else if negb (isinstance_list feature_vector) then
            bad_request "'feature_vector' must be a list of numbers"
          else if negb (match py_len feature_vector with
                        | Some n => Nat.eqb n 1408
                        | None => false
                        end) then
            bad_request "'feature_vector' must have length 1408"
          else
            match py_int rt (dict_get_default request_json "neighbor_count"
                               (PNum (inject_Z (DEFAULT_NEIGHBOR_COUNT cfg)))) with
            | None => ((BodyError "Internal server error" (Some ExnConversion), 500%Z), [])
            | Some neighbor_count =>
                let normalize :=
                  truthy (dict_get_default request_json "normalize" (PBool false)) in
                match find_similar_products feature_vector neighbor_count normalize with
                | (inl e, calls) =>
                    ((BodyError "Internal server error" (Some e), 500%Z), calls)
                | (inr results, calls) => ((BodyResults results, 200%Z), calls)
                end
            end
    end.

End Handlers.

End VectorSearch.

(* ================================================================== *)
(** ** [functions/vector_search_proxy/main.py] *)
(* ================================================================== *)

Module Proxy.

Record Config : Type := {
  EXPECTED_DIMENSIONS : Z;
  MAX_NEIGHBORS : Z;
  SIMILARITY_THRESHOLD : Q;
  RETURN_FULL_DATAPOINT : bool
}.

(** What is drawn afresh for each request: [uuid.uuid4()] and
    [datetime.utcnow().isoformat()]. *)
Record Env : Type := {
  uuid4 : string;
  utcnow_isoformat : string
}.

Record color_info : Type := {
  dominant_color : pyval;
  color_confidence : pyval
}.

(** One element of ["results"]. The keys ["score"] and
    ["similarity_score"] repeat ["similarity"]. *)
Record result_entry : Type := {
  r_id : pyval;
  r_distance : pyval;
  r_similarity : Q;
  r_score : Q;
  r_similarity_score : Q;
  r_color_info : option color_info;
  r_metadata : dict;
  r_image_url : pyval
}.

Record result_set : Type := {
  results : list result_entry;
  topK : nat;
  source : string;
  requestId : string;
  timestamp : string;
  resultsBeforeFilter : nat;
  resultsAfterFilter : nat;
  vertex_sample : option nat   (* "_vertex_sample": nearest_neighbors_length *)
}.

Inductive body : Type :=
| BodyEmpty
| BodyError (error : string) (request_id : string)
| BodyResults (r : result_set).

(** Exceptions that leave the handler uncaught. *)
Inductive exn : Type :=
| AttributeError   (* request_json is None at request_json.get("color") *)
| ConversionError  (* int(neighbor_count) failed *)
| TypeError.       (* len() of an unsized feature_vector *)

Inductive outcome : Type :=
| Reply (b : body) (status : Z)
| Raised (e : exn).

(** Lines 41-51. *)
Definition normalize_similarity (distance : pyval) : Q :=
  if is_none distance then 0
  else match py_abs distance with
       | Some a => 1 / (1 + a)
       | None => 0
       end.

Section Handlers.

Variable rt : Runtime.
Variable cfg : Config.
Variable env : Env.
Variable svc : service.

(** Lines 54-95. Only a non-empty mapping gets past [if raw_meta:] and
    answers [.items()] and [.get()]; for any other value the function
    returns the empty [out] (falsy values skip every branch, truthy
    non-mappings raise inside the outer [try]). *)
Definition _extract_metadata_from_datapoint (dp : datapoint) : dict :=
  match dp_metadata dp with
  | PDict raw_meta =>
      if list_nonempty raw_meta then
        let out := dict_update [] raw_meta in
        let out :=
          fold_left
            (fun out k =>
               if negb (truthy (dict_get out k)) && truthy (dict_get raw_meta k)
               then dict_set out k (dict_get raw_meta k) else out)
            ["gcs_uri"; "gs_uri"; "uri"; "image_url"; "url"; "filename"; "file"; "path"]
            out in
        let out :=
          fold_left
            (fun out pid_key =>
               if negb (truthy (dict_get out "product_id")) && truthy (dict_get raw_meta pid_key)
               then dict_set out "product_id" (dict_get raw_meta pid_key) else out)
            ["productId"; "product_id"; "productid"]
            out in
        if truthy (dict_get raw_meta "color_info") then
          dict_set out "color_info" (dict_get raw_meta "color_info")
        else
          let out :=
            if truthy (dict_get raw_meta "color")
            then dict_set out "color" (dict_get raw_meta "color") else out in
          if truthy (dict_get raw_meta "color_confidence")
          then dict_set out "color_confidence" (dict_get raw_meta "color_confidence")
          else out
      else []
  | _ => []
  end.

(** Lines 98-112. *)
Definition _gs_to_https (gs_uri : pyval) : pyval :=
  if negb (truthy gs_uri) then PNone
  else
    let gs_uri :=
      match gs_uri with
      | PBytes b =>
          PStr (match utf8_decode rt b with
                | Some s => s
                | None => py_str rt (PBytes b)
                end)
      | v => v
      end in
    match gs_uri with
    | PStr s =>
        if startswith s "gs://" then
          match split1 "/" (slice_from 5 s) with
          | [bucket; path] =>
              PStr ("https://storage.googleapis.com/" ++ bucket ++ "/" ++ path)
          | _ => PStr s
          end
        else PStr s
    | _ => PNone
    end.

(** Lines 220-226: the color bias. *)
Definition color_bias (input_color : pyval) (metadata : dict) (similarity : Q) : Q :=
  if truthy input_color && truthy (dict_get metadata "color") then
    if negb (String.eqb (lower (py_str rt (dict_get metadata "color")))
                        (lower (py_str rt input_color)))
    then similarity * (8 # 10)
    else similarity
  else similarity.

(** Lines 239-250. *)
Definition build_color_info (metadata : dict) : option color_info :=
  if truthy (dict_get metadata "color_info") then
    let ci := dict_get metadata "color_info" in
    Some {| dominant_color :=
              match ci with PDict kvs => dict_get kvs "dominant_color" | _ => ci end;
            color_confidence :=
              match ci with PDict kvs => dict_get kvs "color_confidence" | _ => PNone end |}
  else if truthy (dict_get metadata "color") then
    Some {| dominant_color := dict_get metadata "color";
            color_confidence := dict_get metadata "color_confidence" |}
  else None.

(** Lines 208-218: the metadata of a neighbor and its [dp_id]. *)
Definition neighbor_metadata (nb : neighbor) : dict :=
  match nb_datapoint nb with
  | Some dp => _extract_metadata_from_datapoint dp
  | None => []
  end.

Definition neighbor_dp_id (nb : neighbor) : pyval :=
  match nb_datapoint nb with
  | Some dp => py_or (dp_datapoint_id dp) (dp_id dp)
  | None => py_or (nb_datapoint_id nb) (nb_id nb)
  end.

(** The similarity of a neighbor when it reaches the threshold test
    (lines 205-226). *)
Definition scored_similarity (input_color : pyval) (nb : neighbor) : Q :=
  color_bias input_color (neighbor_metadata nb) (normalize_similarity (nb_distance nb)).

(** Lines 234-265: the entry appended for a retained neighbor. *)
Definition make_entry (input_color : pyval) (nb : neighbor) : result_entry :=
  let distance := nb_distance nb in
  let similarity := scored_similarity input_color nb in
  let metadata := neighbor_metadata nb in
  let dp_id := neighbor_dp_id nb in
  let filename := py_or (py_or (dict_get metadata "filename") (dict_get metadata "file")) PNone in
  let gcs_uri :=
    py_or (py_or (py_or (dict_get metadata "gcs_uri") (dict_get metadata "gs_uri"))
                 (dict_get metadata "uri")) PNone in
  let image_url :=
    if truthy gcs_uri then _gs_to_https gcs_uri
    else py_or (py_or (dict_get metadata "image_url") (dict_get metadata "url")) PNone in
  {| r_id := py_or (py_or dp_id (nb_datapoint_id nb)) (nb_id nb);
     r_distance := distance;
     r_similarity := similarity;
     r_score := similarity;
     r_similarity_score := similarity;
     r_color_info := build_color_info metadata;
     r_metadata := dict_update [("filename", filename); ("gcs_uri", gcs_uri)] metadata;
     r_image_url := image_url |}.

(** The loop state: [results], [total_before_filter], [total_after_filter]. *)
Definition loop_state : Type := (list result_entry * nat * nat)%type.

(** Lines 201-265: one iteration of the loop over [neighbors]. *)
Definition process_neighbor (input_color : pyval) (st : loop_state) (nb : neighbor)
  : loop_state :=
  let '(results, total_before_filter, total_after_filter) := st in
  let total_before_filter := S total_before_filter in
  if py_lt (scored_similarity input_color nb) (SIMILARITY_THRESHOLD cfg) then
    (results, total_before_filter, total_after_filter)
  else
    ((results ++ [make_entry input_color nb])%list,
     total_before_filter, S total_after_filter).

Definition process_neighbors (input_color : pyval) (neighbors : list neighbor)
  : loop_state :=
  fold_left (process_neighbor input_color) neighbors ([], O, O).

Definition timestamp_now : string := utcnow_isoformat env ++ "Z".

(** Lines 134-137: the validation failure response. *)
Definition invalid_vector : outcome * list event :=
  (Reply (BodyError ("Vector inválido. Longitud esperada: "
                       ++ str_of_int (EXPECTED_DIMENSIONS cfg)) (uuid4 env)) 400%Z,
   []).

(** Lines 139-288: what follows a successful validation. *)
Definition search_and_rank (feature_vector : pyval) (neighbor_count : Z)
    (input_color : pyval) : outcome * list event :=
  let request_id := uuid4 env in
  let neighbor_count := Z.max 1 (Z.min neighbor_count (MAX_NEIGHBORS cfg)) in
  let calls := [FindNeighbors feature_vector neighbor_count (RETURN_FULL_DATAPOINT cfg)] in
  match svc feature_vector neighbor_count (RETURN_FULL_DATAPOINT cfg) with
  | UpPermissionDenied _ =>
      (Reply (BodyError "Permiso denegado para Vertex AI. Verifique IAM." request_id) 403%Z,
       calls)
  | UpError e =>
      (Reply (BodyError ("Error interno al consultar el índice: " ++ e) request_id) 500%Z,
       calls)
  | UpResponse nn_group =>
      match nn_group with
      | None | Some [] =>
          (Reply (BodyResults {| results := [];
                                 topK := 0;
                                 source := "vertex";
                                 requestId := request_id;
                                 timestamp := timestamp_now;
                                 resultsBeforeFilter := 0;
                                 resultsAfterFilter := 0;
                                 vertex_sample := None |}) 200%Z,
           calls)
      | Some (group :: rest) =>
          let neighbors := match group with Some ns => ns | None => [] end in
          let '(results, total_before_filter, total_after_filter) :=
            process_neighbors input_color neighbors in
          let results := sort_desc r_similarity results in
          (Reply (BodyResults {| results := results;
                                 topK := List.length results;
                                 source := "vertex";
                                 requestId := request_id;
                                 timestamp := timestamp_now;
                                 resultsBeforeFilter := total_before_filter;
                                 resultsAfterFilter := total_after_filter;
                                 vertex_sample := Some (List.length (group :: rest)) |}) 200%Z,
           calls)
      end
  end.

(** Lines 115-288. *)
Definition vector_search_proxy (req : request) : outcome * list event :=
  if String.eqb (req_method req) "OPTIONS" then (Reply BodyEmpty 204%Z, [])
  else
    match req_json req with
    | None => (Raised AttributeError, [])
    | Some request_json =>
        let feature_vector :=
          if list_nonempty request_json then dict_get request_json "feature_vector"
          else PNone in
        match (if list_nonempty request_json
               then py_int rt (dict_get_default request_json "neighbor_count" (PNum 10))
               else Some 10%Z) with
        | None => (Raised ConversionError, [])
        | Some neighbor_count =>
            let input_color := dict_get request_json "color" in
            if truthy feature_vector then
              match py_len feature_vector with
              | None => (Raised TypeError, [])
              | Some n =>
                  if negb (Z.eqb (Z.of_nat n) (EXPECTED_DIMENSIONS cfg)) then invalid_vector
                  else search_and_rank feature_vector neighbor_count input_color
              end
            else invalid_vector
        end
    end.

End Handlers.

End Proxy.

(* ================================================================== *)
(** ** The shared client of [vector_search_proxy/main.py] (lines 22-38) *)
(* ================================================================== *)

Module Client.

Section Client.

Variable client : Type.

(** [aiplatform_v1.MatchServiceClient(..)] at its [n]-th invocation in
    the process; [None] when the constructor raises. *)
Variable MatchServiceClient : nat -> option client.

(** The module-level variable, and the number of times the constructor
    has been invoked so far. *)
Record globals : Type := {
  _vector_search_client : option client;
  constructions : nat
}.

Definition initial : globals :=
  {| _vector_search_client := None; constructions := 0 |}.

(** Lines 26-38; the first component is [None] when the exception of
    the constructor is re-raised. *)
Definition get_vector_search_client (g : globals) : option client * globals :=
  match _vector_search_client g with
  | Some c => (Some c, g)
  | None =>
      match MatchServiceClient (constructions g) with
      | Some c =>
          (Some c, {| _vector_search_client := Some c;
                      constructions := S (constructions g) |})
      | None =>
          (None, {| _vector_search_client := None;
                    constructions := S (constructions g) |})
      end
  end.

(** [n] successive calls: what each returned, and the globals left. *)
Fixpoint call_times (n : nat) (g : globals) : list (option client) * globals :=
  match n with
  | O => ([], g)
  | S n' =>
      let '(r, g') := get_vector_search_client g in
      let '(rs, g'') := call_times n' g' in
      (r :: rs, g'')
  end.

End Client.

End Client.

Import Proxy.

(* ================================================================== *)
(** ** Vocabulary of the statements *)
(* ================================================================== *)

(** The request gets past the validation of [vector_search_proxy]
    (lines 121-137) with feature vector [fv], requested neighbor count
    [k] and color hint [ic]. *)
Definition passes_validation (rt : Runtime) (cfg : Config) (req : request)
    (fv : pyval) (k : Z) (ic : pyval) : Prop :=
  String.eqb (req_method req) "OPTIONS" = false /\
  exists request_json : dict,
    req_json req = Some request_json /\
    list_nonempty request_json = true /\
    fv = dict_get request_json "feature_vector" /\
    truthy fv = true /\
    (exists n : nat, py_len fv = Some n /\ Z.of_nat n = EXPECTED_DIMENSIONS cfg) /\
    py_int rt (dict_get_default request_json "neighbor_count" (PNum 10)) = Some k /\
    ic = dict_get request_json "color".

(** The neighbor count sent to the match service. *)
Definition effective_neighbor_count (cfg : Config) (requested : Z) : Z :=
  Z.max 1 (Z.min requested (MAX_NEIGHBORS cfg)).

(** The raw candidates of a response: the neighbors of its first group. *)
Definition raw_candidates (nn : option (list (option (list neighbor)))) : list neighbor :=
  match nn with
  | Some (Some neighbors :: _) => neighbors
  | _ => []
  end.

(** [similarity >= threshold] for the re-ranked similarity of a candidate. *)
Definition above_threshold (rt : Runtime) (cfg : Config) (ic : pyval) (nb : neighbor) : bool :=
  Qle_bool (SIMILARITY_THRESHOLD cfg) (scored_similarity rt ic nb).

(** The entries of the candidates that pass the threshold, in the order
    of the response. *)
Definition retained (rt : Runtime) (cfg : Config) (ic : pyval) (neighbors : list neighbor)
  : list result_entry :=
  map (make_entry rt ic) (filter (above_threshold rt cfg ic) neighbors).

(** The result set built from the raw candidates [neighbors] under the
    color hint [ic]. *)
Definition ranked_response (rt : Runtime) (cfg : Config) (env : Env) (ic : pyval)
    (neighbors : list neighbor) (rs : result_set) : Prop :=
  results rs = sort_desc r_similarity (retained rt cfg ic neighbors) /\
  topK rs = List.length (results rs) /\
  source rs = "vertex" /\
  requestId rs = uuid4 env /\
  timestamp rs = utcnow_isoformat env ++ "Z" /\
  resultsBeforeFilter rs = List.length neighbors /\
  resultsAfterFilter rs = List.length (retained rt cfg ic neighbors).

(** The hint and the flat ["color"] value of the metadata are both
    truthy and differ once lower-cased. *)
Definition color_mismatch (rt : Runtime) (ic : pyval) (metadata : dict) : bool :=
  truthy ic && truthy (dict_get metadata "color") &&
  negb (String.eqb (lower (py_str rt (dict_get metadata "color"))) (lower (py_str rt ic))).

(** The dominant color of an entry, when it has one. *)
Definition entry_dominant_color (e : result_entry) : pyval :=
  match r_color_info e with
  | Some ci => dominant_color ci
  | None => PNone
  end.


(** [find_similar_products]: a neighbor has an id, and the entry it
    gives. *)
Definition has_id (nb : neighbor) : bool := negb (is_none (nb_id nb)).

Definition entry_of (rt : Runtime) (nb : neighbor) : VectorSearch.entry :=
  {| VectorSearch.e_id := py_str rt (nb_id nb);
     VectorSearch.e_distance :=
       if is_none (nb_distance nb) then None else py_float rt (nb_distance nb) |}.

(** [float(distance)] does not raise. *)
Definition distance_converts (rt : Runtime) (nb : neighbor) : Prop :=
  is_none (nb_distance nb) = true \/ exists d : Q, py_float rt (nb_distance nb) = Some d.

(** The id written in an entry of [vector_search_proxy] (line 253). *)
Definition resolved_id (nb : neighbor) : pyval :=
  py_or (py_or (neighbor_dp_id nb) (nb_datapoint_id nb)) (nb_id nb).

Definition status_of (o : outcome) : option Z :=
  match o with
  | Reply _ status => Some status
  | Raised _ => None
  end.

(** *** Sample inputs *)

(** A runtime used to evaluate the handlers on concrete inputs. *)
Definition rt0 : Runtime :=
  {| py_repr := fun _ => "<object>";
     int_of_str := fun _ => None;
     float_of_str := fun _ => None;
     utf8_decode := fun b => Some b;
     l2_normalize := fun v => Some v |}.

(** A configuration with two-dimensional vectors and the default
    values of the other options. *)
Definition cfg2 : Config :=
  {| EXPECTED_DIMENSIONS := 2;
     MAX_NEIGHBORS := 20;
     SIMILARITY_THRESHOLD := 0;
     RETURN_FULL_DATAPOINT := true |}.

Definition cfg2_half : Config :=
  {| EXPECTED_DIMENSIONS := 2;
     MAX_NEIGHBORS := 20;
     SIMILARITY_THRESHOLD := 1 # 2;
     RETURN_FULL_DATAPOINT := true |}.

Definition env0 : Env :=
  {| uuid4 := "00000000-0000-4000-8000-000000000000";
     utcnow_isoformat := "2024-01-01T00:00:00" |}.

Definition vec2 : pyval := PList [PNum 1; PNum 0].

Definition post (body : dict) : request :=
  {| req_method := "POST"; req_json := Some body |}.

(** A neighbor with an id, a distance and a metadata mapping. *)
Definition candidate (id : string) (distance : Q) (metadata : dict) : neighbor :=
  {| nb_distance := PNum distance;
     nb_datapoint := Some {| dp_datapoint_id := PStr id;
                             dp_id := PNone;
                             dp_metadata := PDict metadata |};
     nb_datapoint_id := PNone;
     nb_id := PNone |}.

(** A neighbor from which no id can be read. *)
Definition anonymous_candidate (distance : Q) : neighbor :=
  {| nb_distance := PNum distance;
     nb_datapoint := None;
     nb_datapoint_id := PNone;
     nb_id := PNone |}.

(** A match service that answers every query with the given neighbors. *)
Definition answering (neighbors : list neighbor) : service :=
  fun _ _ _ => UpResponse (Some [Some neighbors]).

(** A valid request for [cfg2]: five neighbors, color hint [black]. *)
Definition req_black : request :=
  post [("feature_vector", vec2); ("neighbor_count", PNum 5); ("color", PStr "black")].

(** Three candidates with similarities 0.9, 0.4 and 0.6. *)
Definition three_candidates : list neighbor :=
  [candidate "a" (1 # 9) []; candidate "b" (3 # 2) []; candidate "c" (2 # 3) []].

(** Three candidates at distances 0.1, 0.2 and 0.9, colored black,
    white and black. *)
Definition colored_candidates : list neighbor :=
  [candidate "p1" (1 # 10) [("color", PStr "black")];
   candidate "p2" (2 # 10) [("color", PStr "white")];
   candidate "p3" (9 # 10) [("color", PStr "black")]].

(** The similarities and counts of a reply, in lowest terms. *)
Definition summary (o : outcome * list event) : option (list (pyval * Q) * nat * nat) :=
  match fst o with
  | Reply (BodyResults rs) _ =>
      Some (map (fun e => (r_id e, Qred (r_similarity e))) (results rs),
            resultsBeforeFilter rs, resultsAfterFilter rs)
  | _ => None
  end.

(** The dominant color, the normalized similarity of the distance and
    the final similarity of each entry of a reply. *)
Definition color_view (o : outcome * list event) : option (list (pyval * Q * Q)) :=
  match fst o with
  | Reply (BodyResults rs) _ =>
      Some (map (fun e => (entry_dominant_color e,
                           Qred (normalize_similarity (r_distance e)),
                           Qred (r_similarity e))) (results rs))
  | _ => None
  end.

(** A valid request for [cfg2] with color hint [Red]. *)
Definition req_red : request :=
  post [("feature_vector", vec2); ("color", PStr "Red")].


Definition vcfg0 : VectorSearch.Config :=
  {| VectorSearch.DEFAULT_NEIGHBOR_COUNT := 10 |}.


Definition failing : service :=
  fun _ _ _ => UpError "TypeError".

(** *** Further vocabulary *)

(** [k in d]. *)
Definition dict_has (d : dict) (k : string) : bool :=
  existsb (String.eqb k) (map fst d).

(** The product id that [_extract_metadata_from_datapoint] leaves under
    ["product_id"] for the raw metadata [raw]. *)
Definition resolved_product_id (raw : dict) : pyval :=
  if truthy (dict_get raw "product_id") then dict_get raw "product_id"
  else if truthy (dict_get raw "productId") then dict_get raw "productId"
  else if truthy (dict_get raw "productid") then dict_get raw "productid"
  else dict_get raw "product_id".

(** Both distances are numbers, and [a] is at least as close as [b]. *)
Definition closer_or_equal (a b : neighbor) : Prop :=
  exists da db : Q,
    nb_distance a = PNum da /\ nb_distance b = PNum db /\ (Qabs da <= Qabs db)%Q.

(** A valid request for [cfg2] without color hint. *)
Definition req_plain : request := post [("feature_vector", vec2)].

(** A vector of the dimension fixed in [http_vector_search]. *)
Definition vec1408 : pyval := PList (repeat (PNum 0) 1408).

(** A neighbor of [find_similar_products] with id and distance. *)
Definition plain_neighbor (id : pyval) (distance : pyval) : neighbor :=
  {| nb_distance := distance; nb_datapoint := None;
     nb_datapoint_id := PNone; nb_id := id |}.

(** [float(distance)] raises on a neighbor that has an id. *)
Definition distance_fails (rt : Runtime) (nb : neighbor) : Prop :=
  has_id nb = true /\ is_none (nb_distance nb) = false /\
  py_float rt (nb_distance nb) = None.

(** A datapoint carrying the metadata mapping [raw]. *)
Definition with_metadata (raw : dict) : datapoint :=
  {| dp_datapoint_id := PStr "dp"; dp_id := PNone; dp_metadata := PDict raw |}.

(* ================================================================== *)
(** ** The similarity normalizer *)
(* ================================================================== *)

Section SimilarityNormalizer.

Local Open Scope Q_scope.



Lemma inv_one_plus_strict_anti (a b : Q) :
  0 <= a -> a < b -> 1 / (1 + b) < 1 / (1 + a).
Proof.
  intros Ha Hab. unfold Qdiv. rewrite !Qmult_1_l.
  apply (proj1 (Qinv_lt_contravar (1 + a) (1 + b) ltac:(lra) ltac:(lra))). lra.
Qed.

Lemma normalize_similarity_num (d : Q) :
  normalize_similarity (PNum d) = 1 / (1 + Qabs d).
Proof. reflexivity. Qed.



End SimilarityNormalizer.

(* ================================================================== *)
(** ** Storage URI to image URL *)
(* ================================================================== *)

Section GsToHttps.

Variable rt : Runtime.

Lemma split1_spec (sep : ascii) (s : string) :
  (occurs sep s = false /\ split1 sep s = [s]) \/
  (exists a b, split1 sep s = [a; b] /\ s = a ++ String sep b /\ occurs sep a = false).
Proof.
  induction s as [|c s IH]; simpl.
  - left. split; reflexivity.
  - destruct (Ascii.eqb c sep) eqn:E.
    + right. exists EmptyString, s. apply Ascii.eqb_eq in E. subst c.
      repeat split; reflexivity.
    + destruct IH as [[Hocc Hsp] | (a & b & Hsp & Hs & Ha)].
      * left. rewrite Hsp. split; [exact Hocc | reflexivity].
      * right. exists (String c a), b. rewrite Hsp. subst s. simpl. rewrite E, Ha.
        repeat split; reflexivity.
Qed.


Lemma gs_to_https_gs (rest : string) :
  _gs_to_https rt (PStr ("gs://" ++ rest)) =
  match split1 "/" rest with
  | [bucket; path] => PStr ("https://storage.googleapis.com/" ++ bucket ++ "/" ++ path)
  | _ => PStr ("gs://" ++ rest)
  end.
Proof. reflexivity. Qed.

Lemma gs_to_https_other (s : string) :
  s <> "" -> startswith s "gs://" = false -> _gs_to_https rt (PStr s) = PStr s.
Proof.
  intros Hne Hpre. unfold _gs_to_https.
  destruct s as [|c s]; [congruence|].
  cbn [truthy str_nonempty negb]. rewrite Hpre. reflexivity.
Qed.


End GsToHttps.


Example gs_to_https_bucket_object :
  _gs_to_https rt0 (PStr "gs://bucket/path/to/obj.jpg") =
  PStr "https://storage.googleapis.com/bucket/path/to/obj.jpg".
Proof. reflexivity. Qed.

Example gs_to_https_plain_url :
  _gs_to_https rt0 (PStr "https://example.com/a.png") = PStr "https://example.com/a.png".
Proof. reflexivity. Qed.

(* ================================================================== *)
(** ** The stable descending sort *)
(* ================================================================== *)

Section SortDesc.

Context {A : Type}.
Variable key : A -> Q.

Local Open Scope Q_scope.


Lemma py_lt_false (x y : Q) : py_lt x y = false <-> y <= x.
Proof.
  unfold py_lt. rewrite negb_false_iff. apply Qle_bool_iff.
Qed.

Lemma insert_desc_perm (x : A) (l : list A) :
  Permutation (insert_desc key x l) (x :: l).
Proof.
  induction l as [|y l IH]; simpl.
  - apply Permutation_refl.
  - destruct (py_lt (key x) (key y)).
    + eapply perm_trans; [apply perm_skip, IH | apply perm_swap].
    + apply Permutation_refl.
Qed.

Lemma sort_desc_perm (l : list A) : Permutation (sort_desc key l) l.
Proof.
  induction l as [|x l IH]; simpl.
  - apply perm_nil.
  - eapply perm_trans; [apply insert_desc_perm | apply perm_skip, IH].
Qed.

Lemma sort_desc_length (l : list A) : List.length (sort_desc key l) = List.length l.
Proof. apply Permutation_length, sort_desc_perm. Qed.





End SortDesc.

(* ================================================================== *)
(** ** The post-processing loop and the handler around it *)
(* ================================================================== *)

Section Pipeline.

Variable rt : Runtime.
Variable cfg : Config.
Variable env : Env.
Variable svc : service.

Lemma process_neighbors_acc (ic : pyval) (nbs : list neighbor)
    (res : list result_entry) (b a : nat) :
  fold_left (process_neighbor rt cfg ic) nbs (res, b, a) =
  ((res ++ retained rt cfg ic nbs)%list,
   (b + List.length nbs)%nat,
   (a + List.length (retained rt cfg ic nbs))%nat).
Proof.
  revert res b a. induction nbs as [|nb nbs IH]; intros res b a.
  - cbn. rewrite app_nil_r, !Nat.add_0_r. reflexivity.
  - cbn [fold_left].
    assert (Hstep : process_neighbor rt cfg ic (res, b, a) nb =
                    if above_threshold rt cfg ic nb
                    then ((res ++ [make_entry rt ic nb])%list, S b, S a)
                    else (res, S b, a)).
    { unfold process_neighbor, above_threshold, py_lt.
      destruct (Qle_bool (SIMILARITY_THRESHOLD cfg) (scored_similarity rt ic nb));
        reflexivity. }
    rewrite Hstep. unfold retained. cbn [filter].
    destruct (above_threshold rt cfg ic nb); rewrite IH; unfold retained.
    + cbn [map List.length]. rewrite <- app_assoc. cbn [app].
      rewrite !Nat.add_succ_r. reflexivity.
    + cbn [List.length]. rewrite Nat.add_succ_r. reflexivity.
Qed.

Lemma process_neighbors_spec (ic : pyval) (nbs : list neighbor) :
  process_neighbors rt cfg ic nbs =
  (retained rt cfg ic nbs, List.length nbs, List.length (retained rt cfg ic nbs)).
Proof.
  unfold process_neighbors. rewrite process_neighbors_acc. reflexivity.
Qed.

Lemma retained_length_le (ic : pyval) (nbs : list neighbor) :
  (List.length (retained rt cfg ic nbs) <= List.length nbs)%nat.
Proof.
  unfold retained. rewrite length_map. apply filter_length_le.
Qed.

(** Lines 139-288 on a response of the match service. *)
Lemma search_and_rank_response (fv : pyval) (k : Z) (ic : pyval)
    (nn : option (list (option (list neighbor)))) :
  svc fv (effective_neighbor_count cfg k) (RETURN_FULL_DATAPOINT cfg) = UpResponse nn ->
  exists rs : result_set,
    search_and_rank rt cfg env svc fv k ic =
    (Reply (BodyResults rs) 200,
     [FindNeighbors fv (effective_neighbor_count cfg k) (RETURN_FULL_DATAPOINT cfg)]) /\
    ranked_response rt cfg env ic (raw_candidates nn) rs.
Proof.
  intros Hsvc. unfold search_and_rank. fold (effective_neighbor_count cfg k).
  rewrite Hsvc. unfold ranked_response.
  destruct nn as [[|group rest]|].
  - eexists. split; [reflexivity|]. cbn. repeat split; reflexivity.
  - assert (E : match group with Some ns => ns | None => [] end =
                raw_candidates (Some (group :: rest))).
    { destruct group; reflexivity. }
    rewrite E. rewrite process_neighbors_spec.
    eexists. split; [reflexivity|]. cbn [results topK source requestId timestamp
      resultsBeforeFilter resultsAfterFilter].
    repeat split; reflexivity.
  - eexists. split; [reflexivity|]. cbn. repeat split; reflexivity.
Qed.

(** A request that passes the validation is handed to lines 139-288. *)
Lemma proxy_accepts (req : request) (fv : pyval) (k : Z) (ic : pyval) :
  passes_validation rt cfg req fv k ic ->
  vector_search_proxy rt cfg env svc req = search_and_rank rt cfg env svc fv k ic.
Proof.
  intros (Hm & rj & Hj & Hne & Hfv & Ht & (n & Hlen & Hn) & Hk & Hic).
  unfold vector_search_proxy. rewrite Hm, Hj, Hne, <- Hfv, Hk, Ht, Hlen, Hn, <- Hic.
  rewrite Z.eqb_refl. reflexivity.
Qed.

Lemma proxy_response (req : request) (fv : pyval) (k : Z) (ic : pyval)
    (nn : option (list (option (list neighbor)))) :
  passes_validation rt cfg req fv k ic ->
  svc fv (effective_neighbor_count cfg k) (RETURN_FULL_DATAPOINT cfg) = UpResponse nn ->
  exists rs : result_set,
    vector_search_proxy rt cfg env svc req =
    (Reply (BodyResults rs) 200,
     [FindNeighbors fv (effective_neighbor_count cfg k) (RETURN_FULL_DATAPOINT cfg)]) /\
    ranked_response rt cfg env ic (raw_candidates nn) rs.
Proof.
  intros Hv Hsvc. rewrite (proxy_accepts req fv k ic Hv).
  apply search_and_rank_response, Hsvc.
Qed.

End Pipeline.

(* ================================================================== *)
(** ** Filtering and ordering of the results *)
(* ================================================================== *)

Lemma req_black_passes (cfg : Config) :
  EXPECTED_DIMENSIONS cfg = 2%Z ->
  passes_validation rt0 cfg req_black vec2 5 (PStr "black").
Proof.
  intros HD. split; [reflexivity|].
  exists [("feature_vector", vec2); ("neighbor_count", PNum 5); ("color", PStr "black")].
  repeat split; try reflexivity.
  exists 2%nat. split; [reflexivity | symmetry; exact HD].
Qed.

Section Ranking.

Variable rt : Runtime.
Variable cfg : Config.
Variable env : Env.
Variable svc : service.

Local Open Scope Q_scope.

Lemma make_entry_similarity (ic : pyval) (nb : neighbor) :
  r_similarity (make_entry rt ic nb) = scored_similarity rt ic nb.
Proof. reflexivity. Qed.

Lemma in_retained (ic : pyval) (nbs : list neighbor) (e : result_entry) :
  In e (retained rt cfg ic nbs) <->
  exists nb, In nb nbs /\ e = make_entry rt ic nb /\
             SIMILARITY_THRESHOLD cfg <= scored_similarity rt ic nb.
Proof.
  unfold retained. rewrite in_map_iff. split.
  - intros (nb & He & Hin). apply filter_In in Hin. destruct Hin as [Hin Hab].
    exists nb. repeat split; auto. apply Qle_bool_iff, Hab.
  - intros (nb & Hin & He & Hle). exists nb. split; [auto|].
    apply filter_In. split; [exact Hin|]. apply Qle_bool_iff, Hle.
Qed.



End Ranking.



(** Threshold 0.5 on similarities 0.9, 0.4, 0.6. *)
Example filter_half :
  summary (vector_search_proxy rt0 cfg2_half env0 (answering three_candidates) req_black) =
  Some ([(PStr "a", 9 # 10); (PStr "c", 3 # 5)], 3%nat, 2%nat).
Proof. vm_compute. reflexivity. Qed.

(** Hint [black] on distances 0.1, 0.2, 0.9 colored black, white, black. *)
Example end_to_end_black :
  summary (vector_search_proxy rt0 cfg2 env0 (answering colored_candidates) req_black) =
  Some ([(PStr "p1", 10 # 11); (PStr "p2", 2 # 3); (PStr "p3", 10 # 19)], 3%nat, 3%nat).
Proof. vm_compute. reflexivity. Qed.

(* ================================================================== *)
(** ** Range of the similarity *)
(* ================================================================== *)

Section UnitInterval.

Variable rt : Runtime.
Variable cfg : Config.
Variable env : Env.
Variable svc : service.

Local Open Scope Q_scope.



(** Every reply that carries results comes from lines 139-288 run on a
    response of the match service. *)
Lemma search_and_rank_inv (fv : pyval) (k : Z) (ic : pyval)
    (rs : result_set) (st : Z) (calls : list event) :
  search_and_rank rt cfg env svc fv k ic = (Reply (BodyResults rs) st, calls) ->
  exists nn, ranked_response rt cfg env ic (raw_candidates nn) rs.
Proof.
  intros H.
  destruct (svc fv (effective_neighbor_count cfg k) (RETURN_FULL_DATAPOINT cfg))
    as [m|m|nn] eqn:Hsvc.
  - unfold search_and_rank in H. fold (effective_neighbor_count cfg k) in H.
    rewrite Hsvc in H. discriminate.
  - unfold search_and_rank in H. fold (effective_neighbor_count cfg k) in H.
    rewrite Hsvc in H. discriminate.
  - destruct (search_and_rank_response rt cfg env svc fv k ic nn Hsvc) as (rs' & E & R).
    rewrite E in H. injection H as -> _. exists nn. exact R.
Qed.

Lemma proxy_results_inv (req : request) (rs : result_set) (st : Z) (calls : list event) :
  vector_search_proxy rt cfg env svc req = (Reply (BodyResults rs) st, calls) ->
  exists ic nn, ranked_response rt cfg env ic (raw_candidates nn) rs.
Proof.
  unfold vector_search_proxy, invalid_vector.
  destruct (String.eqb (req_method req) "OPTIONS"); [discriminate|].
  destruct (req_json req) as [rj|]; [|discriminate].
  destruct (if list_nonempty rj then _ else _) as [k|]; [|discriminate].
  destruct (truthy _); [|discriminate].
  destruct (py_len _) as [n|]; [|discriminate].
  destruct (negb _); [discriminate|].
  intros H. eexists. eapply search_and_rank_inv, H.
Qed.


End UnitInterval.


(* ================================================================== *)
(** ** Neighbor count and empty responses *)
(* ================================================================== *)

Section Requests.

Variable rt : Runtime.
Variable cfg : Config.
Variable env : Env.
Variable svc : service.

(** C7. On a request that is otherwise valid, whatever neighbor count
    [k] was requested, the match service is queried once, with
    [max(1, min(k, MAX_NEIGHBORS))] neighbors; the handler replies (it
    does not raise), never with status 400, and with status 200 as soon
    as the match service answers. A request of [0] gives [1], and a
    request of [1000] gives [20] when [MAX_NEIGHBORS] is [20]. *)
Theorem neighbor_count_clamped (req : request) (fv : pyval) (k : Z) (ic : pyval) :
  passes_validation rt cfg req fv k ic ->
  snd (vector_search_proxy rt cfg env svc req) =
    [FindNeighbors fv (Z.max 1 (Z.min k (MAX_NEIGHBORS cfg))) (RETURN_FULL_DATAPOINT cfg)] /\
  (exists b st, fst (vector_search_proxy rt cfg env svc req) = Reply b st /\ st <> 400%Z) /\
  (forall nn,
      svc fv (Z.max 1 (Z.min k (MAX_NEIGHBORS cfg))) (RETURN_FULL_DATAPOINT cfg) = UpResponse nn ->
      status_of (fst (vector_search_proxy rt cfg env svc req)) = Some 200%Z) /\
  effective_neighbor_count cfg 0 = 1%Z /\
  (MAX_NEIGHBORS cfg = 20%Z -> effective_neighbor_count cfg 1000 = 20%Z).
Proof.
  intros Hv. rewrite (proxy_accepts rt cfg env svc req fv k ic Hv).
  refine (conj _ (conj _ (conj _ (conj _ _)))).
  - unfold search_and_rank.
    destruct (svc fv _ _) as [m|m|[[|g r]|]]; try reflexivity.
    destruct (process_neighbors _ _ _ _) as [[res b] a]. reflexivity.
  - unfold search_and_rank.
    destruct (svc fv _ _) as [m|m|[[|g r]|]];
      try (eexists; eexists; split; [reflexivity | discriminate]).
    destruct (process_neighbors _ _ _ _) as [[res b] a].
    eexists; eexists; split; [reflexivity | discriminate].
  - intros nn Hsvc.
    destruct (search_and_rank_response rt cfg env svc fv k ic nn Hsvc) as (rs & E & _).
    rewrite E. reflexivity.
  - unfold effective_neighbor_count. lia.
  - intros HM. unfold effective_neighbor_count. rewrite HM. reflexivity.
Qed.

(** C10. On a valid request, when the response of the match service has
    no [nearest_neighbors] (absent or empty), the handler replies with
    status 200 and an empty result set: no results, [topK],
    [resultsBeforeFilter] and [resultsAfterFilter] equal to [0], the
    request id and the timestamp. *)
Theorem empty_response_is_success (req : request) (fv : pyval) (k : Z) (ic : pyval)
    (nn : option (list (option (list neighbor)))) :
  passes_validation rt cfg req fv k ic ->
  svc fv (effective_neighbor_count cfg k) (RETURN_FULL_DATAPOINT cfg) = UpResponse nn ->
  nn = None \/ nn = Some [] ->
  fst (vector_search_proxy rt cfg env svc req) =
  Reply (BodyResults {| results := [];
                        topK := 0;
                        source := "vertex";
                        requestId := uuid4 env;
                        timestamp := utcnow_isoformat env ++ "Z";
                        resultsBeforeFilter := 0;
                        resultsAfterFilter := 0;
                        vertex_sample := None |}) 200.
Proof.
  intros Hv Hsvc Hnn. rewrite (proxy_accepts rt cfg env svc req fv k ic Hv).
  unfold search_and_rank. fold (effective_neighbor_count cfg k). rewrite Hsvc.
  destruct Hnn as [-> | ->]; reflexivity.
Qed.

End Requests.

Lemma neighbor_count_clamped_witness :
  snd (vector_search_proxy rt0 cfg2 env0 (answering colored_candidates)
         (post [("feature_vector", vec2); ("neighbor_count", PNum 1000)])) =
    [FindNeighbors vec2 (Z.max 1 (Z.min 1000 20)) true] /\
  (exists b st,
      fst (vector_search_proxy rt0 cfg2 env0 (answering colored_candidates)
             (post [("feature_vector", vec2); ("neighbor_count", PNum 1000)])) = Reply b st /\
      st <> 400%Z) /\
  (forall nn,
      answering colored_candidates vec2 (Z.max 1 (Z.min 1000 20)) true = UpResponse nn ->
      status_of (fst (vector_search_proxy rt0 cfg2 env0 (answering colored_candidates)
                        (post [("feature_vector", vec2); ("neighbor_count", PNum 1000)]))) =
      Some 200%Z) /\
  effective_neighbor_count cfg2 0 = 1%Z /\
  (20%Z = 20%Z -> effective_neighbor_count cfg2 1000 = 20%Z).
Proof.
  apply (neighbor_count_clamped rt0 cfg2 env0 (answering colored_candidates)
           (post [("feature_vector", vec2); ("neighbor_count", PNum 1000)])
           vec2 1000 PNone).
  split; [reflexivity|].
  exists [("feature_vector", vec2); ("neighbor_count", PNum 1000)].
  repeat split; try reflexivity.
  exists 2%nat. split; reflexivity.
Defined.

Lemma empty_response_witness :
  fst (vector_search_proxy rt0 cfg2 env0 (fun _ _ _ => UpResponse (Some [])) req_black) =
  Reply (BodyResults {| results := [];
                        topK := 0;
                        source := "vertex";
                        requestId := uuid4 env0;
                        timestamp := utcnow_isoformat env0 ++ "Z";
                        resultsBeforeFilter := 0;
                        resultsAfterFilter := 0;
                        vertex_sample := None |}) 200.
Proof.
  exact (empty_response_is_success rt0 cfg2 env0 (fun _ _ _ => UpResponse (Some []))
           req_black vec2 5 (PStr "black") (Some [])
           (req_black_passes cfg2 eq_refl) eq_refl (or_intror eq_refl)).
Defined.

(* ================================================================== *)
(** ** The color bias *)
(* ================================================================== *)

Section ColorBias.

Variable rt : Runtime.
Variable cfg : Config.
Variable env : Env.
Variable svc : service.

Local Open Scope Q_scope.

Lemma color_bias_mismatch (ic : pyval) (metadata : dict) (s : Q) :
  color_bias rt ic metadata s =
  if color_mismatch rt ic metadata then s * (8 # 10) else s.
Proof.
  unfold color_bias, color_mismatch.
  destruct (truthy ic), (truthy (dict_get metadata "color")); cbn [andb]; try reflexivity.
Qed.



End ColorBias.



(** Hint [Red] against a flat color [red] and a flat color [Blue], both
    at distance 0. *)
Example color_bias_red_blue :
  color_view (vector_search_proxy rt0 cfg2 env0
                (answering [candidate "r" 0 [("color", PStr "red")];
                            candidate "b" 0 [("color", PStr "Blue")]])
                req_red) =
  Some [(PStr "red", 1%Q, 1%Q); (PStr "Blue", 1%Q, (4 # 5)%Q)].
Proof. vm_compute. reflexivity. Qed.

(* ================================================================== *)
(** ** Candidates without an id *)
(* ================================================================== *)

Section Identifiers.

Variable rt : Runtime.
Variable cfg : Config.
Variable env : Env.
Variable svc : service.

Local Open Scope Q_scope.

Lemma collect_neighbors_acc (nbs : list neighbor) (acc : list VectorSearch.entry) :
  Forall (distance_converts rt) nbs ->
  fold_left (VectorSearch.add_neighbor rt) nbs (Some acc) =
  Some (acc ++ map (entry_of rt) (filter has_id nbs))%list.
Proof.
  intros H. revert acc. induction H as [|nb nbs Hnb _ IH]; intros acc.
  - cbn. rewrite app_nil_r. reflexivity.
  - cbn [fold_left filter]. unfold VectorSearch.add_neighbor at 2, has_id at 1.
    destruct (is_none (nb_id nb)); cbn [negb].
    + apply IH.
    + destruct Hnb as [Hd | [d Hd]].
      * rewrite Hd. cbn [negb]. rewrite IH. cbn [map]. unfold entry_of at 2.
        rewrite Hd, <- app_assoc. reflexivity.
      * rewrite Hd. destruct (is_none (nb_distance nb)) eqn:En; cbn [negb].
        -- rewrite IH. cbn [map]. unfold entry_of at 2.
           rewrite En, <- app_assoc. reflexivity.
        -- rewrite IH. cbn [map]. unfold entry_of at 2.
           rewrite En, Hd, <- app_assoc. reflexivity.
Qed.

Lemma make_entry_id (ic : pyval) (nb : neighbor) :
  r_id (make_entry rt ic nb) = resolved_id nb.
Proof. reflexivity. Qed.

(** C2, as the code has it. [find_similar_products] skips every
    neighbor whose id is [None], so its list holds one entry for each
    neighbor that has an id, in order. [vector_search_proxy] has no such
    test: [resultsBeforeFilter] is the number of all raw candidates,
    every candidate that passes the threshold is in the results, with
    or without an id, and the id of an entry is the first truthy value
    among the four id attributes, or the last of them. *)
Theorem id_handling_contract :
  (forall (vsvc : service) (fv fv' : pyval) (k : Z) (normalize : bool)
          (nbs : list neighbor) (rest : list (option (list neighbor))),
      (if normalize then l2_normalize rt fv else Some fv) = Some fv' ->
      vsvc fv' k false = UpResponse (Some (Some nbs :: rest)) ->
      Forall (distance_converts rt) nbs ->
      VectorSearch.find_similar_products rt vsvc fv k normalize =
      (inr (map (entry_of rt) (filter has_id nbs)), [FindNeighbors fv' k false])) /\
  (forall (req : request) (fv : pyval) (k : Z) (ic : pyval)
          (nn : option (list (option (list neighbor)))),
      passes_validation rt cfg req fv k ic ->
      svc fv (effective_neighbor_count cfg k) (RETURN_FULL_DATAPOINT cfg) = UpResponse nn ->
      exists rs : result_set,
        fst (vector_search_proxy rt cfg env svc req) = Reply (BodyResults rs) 200 /\
        resultsBeforeFilter rs = List.length (raw_candidates nn) /\
        (forall nb : neighbor,
            In nb (raw_candidates nn) ->
            SIMILARITY_THRESHOLD cfg <= scored_similarity rt ic nb ->
            exists e, In e (results rs) /\ e = make_entry rt ic nb /\ r_id e = resolved_id nb) /\
        Forall (fun e => exists nb, In nb (raw_candidates nn) /\ r_id e = resolved_id nb)
          (results rs)).
Proof.
  split.
  - intros vsvc fv fv' k normalize nbs rest Hn Hsvc Hd.
    unfold VectorSearch.find_similar_products. rewrite Hn, Hsvc.
    unfold VectorSearch.collect_neighbors. rewrite (collect_neighbors_acc nbs [] Hd).
    reflexivity.
  - intros req fv k ic nn Hv Hsvc.
    destruct (proxy_response rt cfg env svc req fv k ic nn Hv Hsvc)
      as (rs & Hrun & Hres & _ & _ & _ & _ & Hb & _).
    exists rs. rewrite Hrun. split; [reflexivity|]. split; [exact Hb|].
    assert (Hperm : Permutation (results rs) (retained rt cfg ic (raw_candidates nn))).
    { rewrite Hres. apply sort_desc_perm. }
    split.
    + intros nb Hin Hle. exists (make_entry rt ic nb).
      split; [|split; [reflexivity | apply make_entry_id]].
      apply (Permutation_in _ (Permutation_sym Hperm)), in_retained.
      exists nb. auto.
    + eapply Permutation_Forall; [apply Permutation_sym, Hperm|].
      apply Forall_forall. intros e He. apply in_retained in He.
      destruct He as (nb & Hin & -> & _). exists nb. split; [exact Hin | apply make_entry_id].
Qed.

End Identifiers.

(** C2, as stated, fails on a response whose only candidate has no id:
    the candidate is counted in [resultsBeforeFilter] and returned with
    the id [None]. *)
Lemma anonymous_candidate_is_kept :
  resolved_id (anonymous_candidate 0) = PNone /\
  summary (vector_search_proxy rt0 cfg2 env0 (answering [anonymous_candidate 0]) req_black) =
    Some ([(PNone, 1%Q)], 1%nat, 1%nat).
Proof.
  split; [reflexivity | vm_compute; reflexivity].
Qed.

(** [find_similar_products] on a neighbor without id followed by one
    with the id [x]. *)
Example find_similar_products_skips_anonymous :
  VectorSearch.find_similar_products rt0
    (answering [anonymous_candidate 0;
                {| nb_distance := PNum (1 # 2); nb_datapoint := None;
                   nb_datapoint_id := PNone; nb_id := PStr "x" |}])
    vec2 5 false =
  (inr [{| VectorSearch.e_id := "x"; VectorSearch.e_distance := Some (1 # 2) |}],
   [FindNeighbors vec2 5 false]).
Proof. reflexivity. Qed.

(* ================================================================== *)
(** ** Validation of the request *)
(* ================================================================== *)

Section Validation.

Variable rt : Runtime.
Variable vcfg : VectorSearch.Config.
Variable cfg : Config.
Variable env : Env.
Variable svc : service.





End Validation.


(** A vector of length 1407 and an absent vector, for the default
    dimension 1408. *)
Example proxy_rejects_short_vector :
  vector_search_proxy rt0
    {| EXPECTED_DIMENSIONS := 1408; MAX_NEIGHBORS := 20;
       SIMILARITY_THRESHOLD := 0; RETURN_FULL_DATAPOINT := true |}
    env0 failing (post [("feature_vector", PList (repeat (PNum 0) 1407))]) =
  (Reply (BodyError "Vector inválido. Longitud esperada: 1408" (uuid4 env0)) 400, []).
Proof. vm_compute. reflexivity. Qed.

Example http_rejects_missing_vector :
  VectorSearch.http_vector_search rt0 vcfg0 failing (post [("neighbor_count", PNum 5)]) =
  ((VectorSearch.BodyError "Missing 'feature_vector' in request body" None, 400%Z), []).
Proof. reflexivity. Qed.

(* ================================================================== *)
(** ** Dictionaries *)
(* ================================================================== *)

Section Dictionaries.

Lemma dict_get_set (d : dict) (k k' : string) (v : pyval) :
  dict_get (dict_set d k v) k' = if String.eqb k k' then v else dict_get d k'.
Proof.
  unfold dict_get. induction d as [|[k0 v0] d IH]; cbn [dict_set dict_get_default].
  - destruct (String.eqb k k'); reflexivity.
  - destruct (String.eqb k0 k) eqn:E0.
    + apply String.eqb_eq in E0. subst k0. cbn [dict_get_default].
      destruct (String.eqb k k'); reflexivity.
    + cbn [dict_get_default]. destruct (String.eqb k0 k') eqn:E1.
      * apply String.eqb_eq in E1. subst k0. rewrite String.eqb_sym, E0. reflexivity.
      * exact IH.
Qed.

Lemma dict_set_same_value (d : dict) (k k' : string) :
  dict_get (dict_set d k (dict_get d k)) k' = dict_get d k'.
Proof.
  rewrite dict_get_set. destruct (String.eqb k k') eqn:E; [|reflexivity].
  apply String.eqb_eq in E. subst. reflexivity.
Qed.

Lemma dict_has_set (d : dict) (k k' : string) (v : pyval) :
  dict_has (dict_set d k v) k' = String.eqb k' k || dict_has d k'.
Proof.
  unfold dict_has. induction d as [|[k0 v0] d IH]; cbn [dict_set map fst existsb].
  - reflexivity.
  - destruct (String.eqb k0 k) eqn:E0.
    + apply String.eqb_eq in E0. subst k0. cbn [map fst existsb].
      destruct (String.eqb k' k); reflexivity.
    + cbn [map fst existsb]. rewrite IH.
      destruct (String.eqb k' k0), (String.eqb k' k); reflexivity.
Qed.

Lemma dict_get_absent (d : dict) (k : string) :
  dict_has d k = false -> dict_get d k = PNone.
Proof.
  unfold dict_has, dict_get. induction d as [|[k0 v0] d IH]; cbn; [reflexivity|].
  rewrite (String.eqb_sym k k0). destruct (String.eqb k0 k); [discriminate|]. exact IH.
Qed.

Lemma dict_set_nodup (d : dict) (k : string) (v : pyval) :
  NoDup (map fst d) -> NoDup (map fst (dict_set d k v)).
Proof.
  induction d as [|[k0 v0] d IH]; cbn [dict_set map fst]; intros H.
  - constructor; [intros [] | constructor].
  - inversion H as [|? ? Hnin Hnd]; subst.
    destruct (String.eqb k0 k) eqn:E0.
    + apply String.eqb_eq in E0. subst k0. cbn [map fst]. constructor; assumption.
    + cbn [map fst]. constructor; [|apply IH, Hnd].
      intros Hin. apply Hnin.
      assert (Hh : dict_has (dict_set d k v) k0 = true).
      { unfold dict_has. apply existsb_exists. exists k0. split; [exact Hin|].
        apply String.eqb_refl. }
      rewrite dict_has_set, E0 in Hh. cbn in Hh.
      unfold dict_has in Hh. apply existsb_exists in Hh.
      destruct Hh as (x & Hx & Ex). apply String.eqb_eq in Ex. subst x. exact Hx.
Qed.

Lemma dict_update_nodup (d e : dict) :
  NoDup (map fst d) -> NoDup (map fst (dict_update d e)).
Proof.
  unfold dict_update. revert d. induction e as [|[k v] e IH]; intros d H; cbn [fold_left].
  - exact H.
  - apply IH, dict_set_nodup, H.
Qed.

(** Reading after [d.update(e)]: the value of [e] wins. *)
Lemma dict_get_update (d e : dict) (k : string) :
  NoDup (map fst e) ->
  dict_get (dict_update d e) k = if dict_has e k then dict_get e k else dict_get d k.
Proof.
  unfold dict_update. revert d. induction e as [|[k0 v0] e IH]; intros d H.
  - reflexivity.
  - cbn [fold_left fst snd]. inversion H as [|? ? Hnin Hnd]; subst.
    rewrite (IH _ Hnd), dict_get_set.
    unfold dict_has at 2. cbn [map fst existsb]. fold (dict_has e k).
    unfold dict_get at 3. cbn [dict_get_default]. fold (dict_get e k).
    rewrite (String.eqb_sym k k0).
    destruct (String.eqb k0 k) eqn:E0; cbn [orb]; [|reflexivity].
    apply String.eqb_eq in E0. subst k0.
    destruct (dict_has e k) eqn:Eh; [|reflexivity].
    exfalso. apply Hnin. unfold dict_has in Eh. apply existsb_exists in Eh.
    destruct Eh as (x & Hx & Ex). apply String.eqb_eq in Ex. subst x. exact Hx.
Qed.

Lemma dict_has_update (d e : dict) (k : string) :
  dict_has (dict_update d e) k = dict_has e k || dict_has d k.
Proof.
  unfold dict_update. revert d. induction e as [|[k0 v0] e IH]; intros d.
  - reflexivity.
  - cbn [fold_left fst snd]. rewrite IH, dict_has_set.
    unfold dict_has at 3. cbn [map fst existsb]. fold (dict_has e k).
    destruct (String.eqb k k0), (dict_has e k), (dict_has d k); reflexivity.
Qed.

End Dictionaries.

(* ================================================================== *)
(** ** Metadata extraction *)
(* ================================================================== *)

Section Extraction.

Lemma alias_loop_id (raw : dict) (keys : list string) (out : dict) :
  (forall k, dict_get out k = dict_get raw k) ->
  fold_left
    (fun out k =>
       if negb (truthy (dict_get out k)) && truthy (dict_get raw k)
       then dict_set out k (dict_get raw k) else out) keys out = out.
Proof.
  intros H. induction keys as [|k keys IH]; cbn [fold_left]; [reflexivity|].
  rewrite H, andb_negb_l. exact IH.
Qed.

(** One iteration of the loop over the product id keys, read through
    [dict_get]. *)
Lemma pid_step_lookup (raw out : dict) (X : pyval) (pid_key : string) :
  (forall k, dict_get out k = if String.eqb k "product_id" then X else dict_get raw k) ->
  forall k,
    dict_get (if negb (truthy (dict_get out "product_id")) && truthy (dict_get raw pid_key)
              then dict_set out "product_id" (dict_get raw pid_key) else out) k =
    if String.eqb k "product_id"
    then (if negb (truthy X) && truthy (dict_get raw pid_key) then dict_get raw pid_key else X)
    else dict_get raw k.
Proof.
  intros H k. rewrite (H "product_id"). cbn [String.eqb Ascii.eqb Bool.eqb andb].
  destruct (negb (truthy X) && truthy (dict_get raw pid_key)).
  - rewrite dict_get_set, (String.eqb_sym "product_id" k).
    destruct (String.eqb k "product_id") eqn:E; [reflexivity|].
    rewrite H, E. reflexivity.
  - apply H.
Qed.

(** Writing back the raw value of a key other than ["product_id"]. *)
Lemma set_raw_lookup (raw out : dict) (X : pyval) (key : string) :
  String.eqb key "product_id" = false ->
  (forall k, dict_get out k = if String.eqb k "product_id" then X else dict_get raw k) ->
  forall k,
    dict_get (dict_set out key (dict_get raw key)) k =
    if String.eqb k "product_id" then X else dict_get raw k.
Proof.
  intros Hk H k. rewrite dict_get_set. destruct (String.eqb key k) eqn:E; [|apply H].
  apply String.eqb_eq in E. subst k. rewrite Hk. reflexivity.
Qed.

Lemma extract_lookup (dp : datapoint) (raw : dict) (k : string) :
  dp_metadata dp = PDict raw ->
  NoDup (map fst raw) ->
  dict_get (_extract_metadata_from_datapoint dp) k =
  if String.eqb k "product_id" then resolved_product_id raw else dict_get raw k.
Proof.
  intros Hm Hnd. unfold _extract_metadata_from_datapoint. rewrite Hm.
  destruct (list_nonempty raw) eqn:Hne.
  2:{ destruct raw; [|discriminate]. cbn. destruct (String.eqb k "product_id"); reflexivity. }
  set (out0 := dict_update [] raw).
  assert (H0 : forall k, dict_get out0 k = dict_get raw k).
  { intros k0. unfold out0. rewrite dict_get_update by exact Hnd.
    destruct (dict_has raw k0) eqn:E; [reflexivity|].
    symmetry. apply dict_get_absent, E. }
  rewrite (alias_loop_id raw _ out0 H0).
  assert (H1 : forall k, dict_get out0 k =
                         if String.eqb k "product_id" then dict_get raw "product_id"
                         else dict_get raw k).
  { intros k0. rewrite H0. destruct (String.eqb k0 "product_id") eqn:E; [|reflexivity].
    apply String.eqb_eq in E. subst k0. reflexivity. }
  cbn [fold_left].
  pose proof (pid_step_lookup raw _ _ "productId" H1) as H2.
  pose proof (pid_step_lookup raw _ _ "product_id" H2) as H3.
  pose proof (pid_step_lookup raw _ _ "productid" H3) as H4.
  cbv beta in H4.
  match type of H4 with
  | forall k, dict_get ?o k = if _ then ?X else _ =>
      set (out3 := o) in *; 
      assert (HX : X = resolved_product_id raw)
  end.
  { unfold resolved_product_id.
    destruct (truthy (dict_get raw "product_id")) eqn:EA;
      destruct (truthy (dict_get raw "productId")) eqn:EB;
      destruct (truthy (dict_get raw "productid")) eqn:EC;
      cbn [negb andb]; rewrite ?EA, ?EB, ?EC; cbn [negb andb]; rewrite ?EA, ?EB, ?EC;
      reflexivity. }
  rewrite HX in H4. clear H2 H3 HX.
  destruct (truthy (dict_get raw "color_info")).
  - apply set_raw_lookup; [reflexivity | exact H4].
  - destruct (truthy (dict_get raw "color")), (truthy (dict_get raw "color_confidence"));
      repeat (apply set_raw_lookup; [reflexivity|]); first [exact H4 | apply H4].
Qed.

End Extraction.

Section ExtractionContract.

Variable rt : Runtime.

Lemma cond_set_nodup (keys : list string) (out : dict)
    (c : dict -> string -> bool) (f : string -> string) (g : string -> pyval) :
  NoDup (map fst out) ->
  NoDup (map fst (fold_left (fun o k => if c o k then dict_set o (f k) (g k) else o) keys out)).
Proof.
  revert out. induction keys as [|k keys IH]; intros out H; cbn [fold_left]; [exact H|].
  apply IH. destruct (c out k); [apply dict_set_nodup|]; exact H.
Qed.

Lemma extract_nodup (dp : datapoint) :
  NoDup (map fst (_extract_metadata_from_datapoint dp)).
Proof.
  unfold _extract_metadata_from_datapoint.
  destruct (dp_metadata dp) as [| | | | |l|raw]; try constructor.
  destruct (list_nonempty raw); [|constructor].
  assert (H0 : NoDup (map fst (dict_update [] raw))).
  { apply dict_update_nodup. constructor. }
  pose proof (cond_set_nodup
                ["gcs_uri"; "gs_uri"; "uri"; "image_url"; "url"; "filename"; "file"; "path"]
                _ (fun o k => negb (truthy (dict_get o k)) && truthy (dict_get raw k))
                (fun k => k) (fun k => dict_get raw k) H0) as H1.
  pose proof (cond_set_nodup ["productId"; "product_id"; "productid"] _
                (fun o k => negb (truthy (dict_get o "product_id")) && truthy (dict_get raw k))
                (fun _ => "product_id") (fun k => dict_get raw k) H1) as H2.
  cbv beta in H1, H2.
  destruct (truthy (dict_get raw "color_info")); [apply dict_set_nodup, H2|].
  destruct (truthy (dict_get raw "color")), (truthy (dict_get raw "color_confidence"));
    repeat apply dict_set_nodup; exact H2.
Qed.

(** X1. [_extract_metadata_from_datapoint] on a metadata mapping keeps
    every key readable with the value it had, and only settles
    ["product_id"]: a truthy ["product_id"] stays, otherwise the first
    truthy of ["productId"] and ["productid"] is written there. *)
Theorem extract_metadata_passthrough (dp : datapoint) (raw : dict) (k : string) :
  dp_metadata dp = PDict raw ->
  NoDup (map fst raw) ->
  dict_get (_extract_metadata_from_datapoint dp) k =
  if String.eqb k "product_id"
  then (if truthy (dict_get raw "product_id") then dict_get raw "product_id"
        else if truthy (dict_get raw "productId") then dict_get raw "productId"
        else if truthy (dict_get raw "productid") then dict_get raw "productid"
        else dict_get raw "product_id")
  else dict_get raw k.
Proof.
  intros Hm Hnd. exact (extract_lookup dp raw k Hm Hnd).
Qed.

(** X2. A neighbor without datapoint, or whose datapoint metadata is not
    a non-empty mapping, gives an entry with the plain normalized
    similarity (the color hint has no effect), no color info, no image
    URL, and a metadata bag holding only the empty ["filename"] and
    ["gcs_uri"]. *)
Theorem entry_without_metadata (ic : pyval) (nb : neighbor) :
  match nb_datapoint nb with
  | None => True
  | Some dp => forall kvs, dp_metadata dp = PDict kvs -> kvs = []
  end ->
  r_similarity (make_entry rt ic nb) = normalize_similarity (nb_distance nb) /\
  r_color_info (make_entry rt ic nb) = None /\
  r_image_url (make_entry rt ic nb) = PNone /\
  r_metadata (make_entry rt ic nb) = [("filename", PNone); ("gcs_uri", PNone)].
Proof.
  intros H.
  assert (Hmd : neighbor_metadata nb = []).
  { unfold neighbor_metadata. destruct (nb_datapoint nb) as [dp|]; [|reflexivity].
    unfold _extract_metadata_from_datapoint.
    destruct (dp_metadata dp) as [| | | | |l|raw]; try reflexivity.
    rewrite (H raw eq_refl). reflexivity. }
  unfold make_entry, scored_similarity, color_bias. rewrite Hmd. cbn.
  rewrite andb_false_r. repeat split; reflexivity.
Qed.

(** X3. The metadata bag of an entry passes the extracted metadata
    through: a key of the metadata reads as in the metadata, also
    ["filename"] and ["gcs_uri"]; only when the metadata lacks them do
    these two hold the resolved file name and storage URI. *)
Theorem entry_metadata_passthrough (ic : pyval) (nb : neighbor) (k : string) :
  dict_get (r_metadata (make_entry rt ic nb)) k =
  if dict_has (neighbor_metadata nb) k then dict_get (neighbor_metadata nb) k
  else if String.eqb k "filename"
       then py_or (dict_get (neighbor_metadata nb) "file") PNone
  else if String.eqb k "gcs_uri"
       then py_or (py_or (dict_get (neighbor_metadata nb) "gs_uri")
                         (dict_get (neighbor_metadata nb) "uri")) PNone
  else PNone.
Proof.
  assert (Hnd : NoDup (map fst (neighbor_metadata nb))).
  { unfold neighbor_metadata. destruct (nb_datapoint nb); [apply extract_nodup | constructor]. }
  unfold make_entry. cbn [r_metadata]. rewrite (dict_get_update _ _ _ Hnd).
  destruct (dict_has (neighbor_metadata nb) k) eqn:Eh; [reflexivity|].
  unfold dict_get at 1. cbn [dict_get_default].
  rewrite (String.eqb_sym "filename" k), (String.eqb_sym "gcs_uri" k).
  destruct (String.eqb k "filename") eqn:Ef.
  - apply String.eqb_eq in Ef. subst k.
    rewrite (dict_get_absent _ _ Eh). reflexivity.
  - destruct (String.eqb k "gcs_uri") eqn:Eg; [|reflexivity].
    apply String.eqb_eq in Eg. subst k.
    rewrite (dict_get_absent _ _ Eh). reflexivity.
Qed.

End ExtractionContract.

Section ImageUrl.

Variable rt : Runtime.

Lemma startswith_split (s p : string) :
  startswith s p = true -> s = p ++ slice_from (String.length p) s.
Proof.
  revert s. induction p as [|c p IH]; intros s H; [reflexivity|].
  destruct s as [|d s]; [discriminate|]. cbn in H.
  apply andb_true_iff in H. destruct H as [Hc Hp].
  apply Ascii.eqb_eq in Hc. subst d. cbn. f_equal. apply IH, Hp.
Qed.

Lemma gs_to_https_str_cases (s : string) :
  _gs_to_https rt (PStr s) = PNone /\ s = "" \/
  _gs_to_https rt (PStr s) = PStr s /\ s <> "" /\
    (startswith s "gs://" = true -> occurs "/" (slice_from 5 s) = false) \/
  exists bucket path,
    _gs_to_https rt (PStr s) =
      PStr ("https://storage.googleapis.com/" ++ bucket ++ "/" ++ path) /\
    s = "gs://" ++ bucket ++ "/" ++ path.
Proof.
  destruct s as [|c s']; [left; split; reflexivity|].
  set (s := String c s').
  assert (Hne : s <> "") by discriminate.
  destruct (startswith s "gs://") eqn:Hp.
  - assert (Hs : s = "gs://" ++ slice_from 5 s).
    { exact (startswith_split s "gs://" Hp). }
    destruct (split1_spec "/" (slice_from 5 s)) as [[Hocc Hsp] | (a & b & Hsp & Hab & _)].
    + right. left. rewrite Hs at 1. rewrite gs_to_https_gs, Hsp, <- Hs.
      repeat split; auto.
    + right. right. exists a, b. rewrite Hs at 1. rewrite gs_to_https_gs, Hsp.
      split; [reflexivity|]. rewrite Hs at 1. rewrite Hab. reflexivity.
  - right. left. rewrite (gs_to_https_other rt s Hne Hp).
    repeat split; auto. intros; discriminate.
Qed.

(** X4. On strings [_gs_to_https] is idempotent: converting its own
    result changes nothing. *)
Theorem gs_to_https_idempotent (s : string) :
  _gs_to_https rt (_gs_to_https rt (PStr s)) = _gs_to_https rt (PStr s).
Proof.
  destruct (gs_to_https_str_cases s)
    as [[-> _] | [(E & _ & _) | (bucket & path & -> & _)]].
  - reflexivity.
  - rewrite E. exact E.
  - reflexivity.
Qed.

(** X5. Whatever its argument, [_gs_to_https] never returns a [gs://]
    URI that has a ['/'] after the scheme: such a URI is always
    rewritten to its HTTPS form. *)
Theorem gs_to_https_never_gs_object (v : pyval) (s : string) :
  _gs_to_https rt v = PStr s ->
  startswith s "gs://" = true ->
  occurs "/" (slice_from 5 s) = false.
Proof.
  assert (Hstr : forall s0, _gs_to_https rt (PStr s0) = PStr s ->
                            startswith s "gs://" = true ->
                            occurs "/" (slice_from 5 s) = false).
  { intros s0 H.
    destruct (gs_to_https_str_cases s0)
      as [[E _] | [(E & _ & Hocc) | (bucket & path & E & _)]]; rewrite E in H.
    - discriminate.
    - injection H as <-. exact Hocc.
    - injection H as <-. discriminate. }
  destruct v as [|b|q|s0|b|l|kvs]; try (unfold _gs_to_https; destruct (truthy _); discriminate).
  - apply Hstr.
  - unfold _gs_to_https. destruct (truthy (PBytes b)); [|discriminate].
    cbn [negb].
    destruct (match utf8_decode rt b with Some s1 => s1 | None => py_str rt (PBytes b) end)
      as [|c s1] eqn:Ed.
    + cbn. intros H. injection H as <-. discriminate.
    + intros H. apply (Hstr (String c s1)). exact H.
Qed.

End ImageUrl.

Section EntryFields.

Variable rt : Runtime.



End EntryFields.

Lemma extract_metadata_passthrough_witness :
  dict_get (_extract_metadata_from_datapoint
              (with_metadata [("productId", PStr "42"); ("color", PStr "red")]))
           "product_id" = PStr "42".
Proof.
  exact (extract_metadata_passthrough
           (with_metadata [("productId", PStr "42"); ("color", PStr "red")])
           [("productId", PStr "42"); ("color", PStr "red")] "product_id" eq_refl
           ltac:(repeat constructor; cbn; intuition discriminate)).
Defined.

Lemma entry_without_metadata_witness :
  r_similarity (make_entry rt0 (PStr "black") (anonymous_candidate 0)) =
    normalize_similarity (PNum 0) /\
  r_color_info (make_entry rt0 (PStr "black") (anonymous_candidate 0)) = None /\
  r_image_url (make_entry rt0 (PStr "black") (anonymous_candidate 0)) = PNone /\
  r_metadata (make_entry rt0 (PStr "black") (anonymous_candidate 0)) =
    [("filename", PNone); ("gcs_uri", PNone)].
Proof.
  exact (entry_without_metadata rt0 (PStr "black") (anonymous_candidate 0) I).
Defined.

Lemma gs_to_https_never_gs_object_witness :
  occurs "/" (slice_from 5 "gs://bucket-only") = false.
Proof.
  exact (gs_to_https_never_gs_object rt0 (PBytes "gs://bucket-only") "gs://bucket-only"
           eq_refl eq_refl).
Defined.


(* ================================================================== *)
(** ** Replies of [vector_search_proxy] *)
(* ================================================================== *)

Section ProxyReplies.

Variable rt : Runtime.
Variable cfg : Config.
Variable env : Env.
Variable svc : service.

Lemma search_and_rank_shape (fv : pyval) (k : Z) (ic : pyval) :
  exists b st,
    search_and_rank rt cfg env svc fv k ic =
    (Reply b st,
     [FindNeighbors fv (effective_neighbor_count cfg k) (RETURN_FULL_DATAPOINT cfg)]) /\
    (st = 200 \/ st = 403 \/ st = 500)%Z.
Proof.
  unfold search_and_rank. fold (effective_neighbor_count cfg k).
  destruct (svc fv _ _) as [m|m|[[|g r]|]];
    try (eexists; eexists; split; [reflexivity | auto]).
  destruct (process_neighbors _ _ _ _) as [[res b] a].
  eexists; eexists; split; [reflexivity | auto].
Qed.



(** X9. In every reply that carries results, [topK], the number of
    results and [resultsAfterFilter] are one number, at most
    [resultsBeforeFilter]. *)
Theorem result_counts_agree (req : request) (rs : result_set) (st : Z)
    (calls : list event) :
  vector_search_proxy rt cfg env svc req = (Reply (BodyResults rs) st, calls) ->
  topK rs = List.length (results rs) /\
  resultsAfterFilter rs = topK rs /\
  (resultsAfterFilter rs <= resultsBeforeFilter rs)%nat.
Proof.
  intros H. apply proxy_results_inv in H.
  destruct H as (ic & nn & Hres & Htop & _ & _ & _ & Hb & Ha).
  assert (Hlen : List.length (results rs) =
                 List.length (retained rt cfg ic (raw_candidates nn))).
  { rewrite Hres. apply sort_desc_length. }
  repeat split.
  - exact Htop.
  - rewrite Htop, Hlen. exact Ha.
  - rewrite Ha, Hb. apply retained_length_le.
Qed.

End ProxyReplies.


Lemma result_counts_witness :
  exists rs : result_set,
    vector_search_proxy rt0 cfg2_half env0 (answering three_candidates) req_black =
    (Reply (BodyResults rs) 200, [FindNeighbors vec2 5 true]) /\
    topK rs = List.length (results rs) /\
    resultsAfterFilter rs = topK rs /\
    (resultsAfterFilter rs <= resultsBeforeFilter rs)%nat.
Proof.
  eexists. split.
  - vm_compute. reflexivity.
  - apply (result_counts_agree rt0 cfg2_half env0 (answering three_candidates)
             req_black _ 200 [FindNeighbors vec2 5 true]).
    vm_compute. reflexivity.
Defined.

(* ================================================================== *)
(** ** Scores and order of the results *)
(* ================================================================== *)

Section Scores.

Variable rt : Runtime.
Variable env : Env.
Variable svc : service.

Local Open Scope Q_scope.

Lemma filter_length_mono {A : Type} (p q : A -> bool) (l : list A) :
  (forall x, p x = true -> q x = true) ->
  (List.length (filter p l) <= List.length (filter q l))%nat.
Proof.
  intros H. induction l as [|x l IH]; cbn [filter]; [apply Nat.le_refl|].
  destruct (p x) eqn:Ep.
  - rewrite (H x Ep). cbn [List.length]. apply le_n_S, IH.
  - destruct (q x); cbn [List.length]; [apply Nat.le_le_succ_r|]; exact IH.
Qed.

(** X10. Raising the threshold, all else equal, never adds a result:
    every entry returned under the higher threshold is returned under
    the lower one, [resultsAfterFilter] does not grow and
    [resultsBeforeFilter] does not change. *)
Theorem higher_threshold_keeps_fewer (cfg1 cfg2 : Config) (req : request) (fv : pyval)
    (k : Z) (ic : pyval) (nn : option (list (option (list neighbor)))) :
  EXPECTED_DIMENSIONS cfg1 = EXPECTED_DIMENSIONS cfg2 ->
  MAX_NEIGHBORS cfg1 = MAX_NEIGHBORS cfg2 ->
  RETURN_FULL_DATAPOINT cfg1 = RETURN_FULL_DATAPOINT cfg2 ->
  SIMILARITY_THRESHOLD cfg1 <= SIMILARITY_THRESHOLD cfg2 ->
  passes_validation rt cfg1 req fv k ic ->
  svc fv (effective_neighbor_count cfg1 k) (RETURN_FULL_DATAPOINT cfg1) = UpResponse nn ->
  exists rs1 rs2 : result_set,
    fst (vector_search_proxy rt cfg1 env svc req) = Reply (BodyResults rs1) 200 /\
    fst (vector_search_proxy rt cfg2 env svc req) = Reply (BodyResults rs2) 200 /\
    incl (results rs2) (results rs1) /\
    (resultsAfterFilter rs2 <= resultsAfterFilter rs1)%nat /\
    resultsBeforeFilter rs2 = resultsBeforeFilter rs1.
Proof.
  intros HD HM HR Hthr Hv Hsvc.
  assert (Hv2 : passes_validation rt cfg2 req fv k ic).
  { destruct Hv as (Hm & rj & Hj & Hne & Hfv & Ht & (n & Hlen & Hn) & Hk & Hic).
    split; [exact Hm|]. exists rj. repeat split; auto.
    exists n. split; [exact Hlen | rewrite <- HD; exact Hn]. }
  assert (Hsvc2 : svc fv (effective_neighbor_count cfg2 k) (RETURN_FULL_DATAPOINT cfg2) =
                  UpResponse nn).
  { unfold effective_neighbor_count in *. rewrite <- HM, <- HR. exact Hsvc. }
  destruct (proxy_response rt cfg1 env svc req fv k ic nn Hv Hsvc)
    as (rs1 & E1 & Hres1 & _ & _ & _ & _ & Hb1 & Ha1).
  destruct (proxy_response rt cfg2 env svc req fv k ic nn Hv2 Hsvc2)
    as (rs2 & E2 & Hres2 & _ & _ & _ & _ & Hb2 & Ha2).
  exists rs1, rs2. rewrite E1, E2. split; [reflexivity|]. split; [reflexivity|].
  assert (Himp : forall nb, above_threshold rt cfg2 ic nb = true ->
                            above_threshold rt cfg1 ic nb = true).
  { unfold above_threshold. intros nb H. apply Qle_bool_iff in H. apply Qle_bool_iff. lra. }
  refine (conj _ (conj _ _)).
  - intros e He. rewrite Hres2 in He. rewrite Hres1.
    apply (Permutation_in _ (sort_desc_perm _ _)) in He.
    apply (Permutation_in _ (Permutation_sym (sort_desc_perm _ _))).
    apply in_retained in He. destruct He as (nb & Hin & -> & Hle).
    apply in_retained. exists nb. repeat split; auto. lra.
  - rewrite Ha1, Ha2. unfold retained. rewrite !length_map.
    apply filter_length_mono, Himp.
  - rewrite Hb1, Hb2. reflexivity.
Qed.

Variable cfg : Config.


(** X12. An entry whose distance is absent or not a number has the
    similarity [0], with or without color bias; so under a positive
    threshold every entry of a reply has a numeric distance. *)
Theorem unknown_distance_scores_zero (req : request) (rs : result_set) (st : Z)
    (calls : list event) :
  vector_search_proxy rt cfg env svc req = (Reply (BodyResults rs) st, calls) ->
  Forall (fun e => py_abs (r_distance e) = None -> r_similarity e == 0) (results rs) /\
  (0 < SIMILARITY_THRESHOLD cfg ->
   Forall (fun e => exists a, py_abs (r_distance e) = Some a) (results rs)).
Proof.
  intros H. apply proxy_results_inv in H. destruct H as (ic & nn & Hres & _).
  assert (Hzero : forall nb, py_abs (nb_distance nb) = None ->
                             scored_similarity rt ic nb == 0).
  { intros nb Hn. unfold scored_similarity. rewrite color_bias_mismatch.
    unfold normalize_similarity. rewrite Hn.
    destruct (is_none (nb_distance nb)), (color_mismatch rt ic (neighbor_metadata nb));
      reflexivity. }
  rewrite Hres. split.
  - eapply Permutation_Forall; [apply Permutation_sym, sort_desc_perm|].
    unfold retained. apply Forall_map, Forall_forall. intros nb _.
    rewrite make_entry_similarity. apply Hzero.
  - intros Hthr.
    eapply Permutation_Forall; [apply Permutation_sym, sort_desc_perm|].
    apply Forall_forall. intros e He. apply in_retained in He.
    destruct He as (nb & _ & -> & Hle).
    change (r_distance (make_entry rt ic nb)) with (nb_distance nb).
    destruct (py_abs (nb_distance nb)) as [a|] eqn:Ea; [exists a; reflexivity|].
    pose proof (Hzero nb Ea). lra.
Qed.

End Scores.

Lemma higher_threshold_witness :
  exists rs1 rs2 : result_set,
    fst (vector_search_proxy rt0 cfg2 env0 (answering three_candidates) req_black) =
      Reply (BodyResults rs1) 200 /\
    fst (vector_search_proxy rt0 cfg2_half env0 (answering three_candidates) req_black) =
      Reply (BodyResults rs2) 200 /\
    incl (results rs2) (results rs1) /\
    (resultsAfterFilter rs2 <= resultsAfterFilter rs1)%nat /\
    resultsBeforeFilter rs2 = resultsBeforeFilter rs1.
Proof.
  exact (higher_threshold_keeps_fewer rt0 env0 (answering three_candidates) cfg2 cfg2_half
           req_black vec2 5 (PStr "black") (Some [Some three_candidates])
           eq_refl eq_refl eq_refl ltac:(vm_compute; discriminate)
           (req_black_passes cfg2 eq_refl) eq_refl).
Defined.


Lemma unknown_distance_witness :
  exists rs : result_set,
    vector_search_proxy rt0 cfg2 env0
      (answering [{| nb_distance := PNone; nb_datapoint := None;
                     nb_datapoint_id := PStr "u"; nb_id := PNone |}]) req_black =
    (Reply (BodyResults rs) 200, [FindNeighbors vec2 5 true]) /\
    Forall (fun e => py_abs (r_distance e) = None -> (r_similarity e == 0)%Q) (results rs) /\
    ((0 < SIMILARITY_THRESHOLD cfg2)%Q ->
     Forall (fun e => exists a, py_abs (r_distance e) = Some a) (results rs)).
Proof.
  eexists. split.
  - vm_compute. reflexivity.
  - apply (unknown_distance_scores_zero rt0 env0
             (answering [{| nb_distance := PNone; nb_datapoint := None;
                            nb_datapoint_id := PStr "u"; nb_id := PNone |}]) cfg2
             req_black _ 200 [FindNeighbors vec2 5 true]).
    vm_compute. reflexivity.
Defined.

Section UpstreamOrder.

Variable rt : Runtime.
Variable cfg : Config.
Variable env : Env.

Local Open Scope Q_scope.

Lemma sort_desc_sorted_id {A : Type} (key : A -> Q) (l : list A) :
  StronglySorted (desc key) l -> sort_desc key l = l.
Proof.
  induction 1 as [|x l Hs IH Hx]; [reflexivity|].
  cbn [sort_desc fold_right]. fold (sort_desc key l). rewrite IH.
  destruct l as [|y l']; [reflexivity|].
  cbn [insert_desc]. inversion Hx as [|? ? Hy _]; subst.
  apply py_lt_false in Hy. rewrite Hy. reflexivity.
Qed.

Lemma strongly_sorted_filter {A : Type} (R : A -> A -> Prop) (p : A -> bool) (l : list A) :
  StronglySorted R l -> StronglySorted R (filter p l).
Proof.
  induction 1 as [|x l Hs IH Hx]; cbn [filter]; [constructor|].
  destruct (p x); [|exact IH].
  constructor; [exact IH|].
  apply Forall_forall. intros y Hy. apply filter_In in Hy.
  rewrite Forall_forall in Hx. apply Hx, Hy.
Qed.

Lemma strongly_sorted_map {A B : Type} (R : A -> A -> Prop) (S : B -> B -> Prop)
    (f : A -> B) (l : list A) :
  (forall a b, R a b -> S (f a) (f b)) ->
  StronglySorted R l -> StronglySorted S (map f l).
Proof.
  intros HRS. induction 1 as [|x l Hs IH Hx]; cbn [map]; constructor; [exact IH|].
  apply Forall_map. eapply Forall_impl; [|exact Hx]. intros a Ha. apply HRS, Ha.
Qed.

Lemma inv_one_plus_anti (a b : Q) : 0 <= a -> a <= b -> 1 / (1 + b) <= 1 / (1 + a).
Proof.
  intros Ha Hab. destruct (Qlt_le_dec a b) as [Hlt | Hge].
  - apply Qlt_le_weak, inv_one_plus_strict_anti; assumption.
  - assert (E : a == b) by lra. rewrite E. apply Qle_refl.
Qed.

(** X13. Without a color hint, when the match service returns its
    neighbors closest first (numeric distances, non-decreasing in
    absolute value), the results are the retained candidates in exactly
    the order of the match service. *)
Theorem closest_first_order_is_kept (svc : service) (req : request) (fv : pyval) (k : Z)
    (ic : pyval) (nn : option (list (option (list neighbor)))) :
  passes_validation rt cfg req fv k ic ->
  svc fv (effective_neighbor_count cfg k) (RETURN_FULL_DATAPOINT cfg) = UpResponse nn ->
  truthy ic = false ->
  StronglySorted closer_or_equal (raw_candidates nn) ->
  exists rs : result_set,
    fst (vector_search_proxy rt cfg env svc req) = Reply (BodyResults rs) 200 /\
    results rs =
    map (make_entry rt ic)
      (filter (fun nb => Qle_bool (SIMILARITY_THRESHOLD cfg)
                           (normalize_similarity (nb_distance nb)))
         (raw_candidates nn)).
Proof.
  intros Hv Hsvc Hic Hsorted.
  destruct (proxy_response rt cfg env svc req fv k ic nn Hv Hsvc)
    as (rs & Hrun & Hres & _).
  exists rs. rewrite Hrun. split; [reflexivity|].
  assert (Hscore : forall nb, scored_similarity rt ic nb =
                              normalize_similarity (nb_distance nb)).
  { intros nb. unfold scored_similarity, color_bias. rewrite Hic. reflexivity. }
  rewrite Hres, sort_desc_sorted_id.
  - unfold retained. f_equal. apply filter_ext. intros nb.
    unfold above_threshold. rewrite Hscore. reflexivity.
  - unfold retained.
    apply (strongly_sorted_map closer_or_equal); [|apply strongly_sorted_filter, Hsorted].
    intros a b (da & db & Ea & Eb & Hle). unfold desc.
    rewrite !make_entry_similarity, !Hscore, Ea, Eb, !normalize_similarity_num.
    apply inv_one_plus_anti; [apply Qabs_nonneg | exact Hle].
Qed.



End UpstreamOrder.

Lemma req_plain_passes (cfg : Config) :
  EXPECTED_DIMENSIONS cfg = 2%Z ->
  passes_validation rt0 cfg req_plain vec2 10 PNone.
Proof.
  intros HD. split; [reflexivity|].
  exists [("feature_vector", vec2)].
  repeat split; try reflexivity.
  exists 2%nat. split; [reflexivity | symmetry; exact HD].
Qed.

Lemma colored_candidates_closest_first :
  StronglySorted closer_or_equal colored_candidates.
Proof.
  unfold colored_candidates, closer_or_equal, candidate.
  repeat (constructor; cbn [nb_distance]);
    try (eexists; eexists; split; [reflexivity | split; [reflexivity|]];
         vm_compute; discriminate).
Qed.

Lemma closest_first_order_witness :
  exists rs : result_set,
    fst (vector_search_proxy rt0 cfg2 env0 (answering colored_candidates) req_plain) =
      Reply (BodyResults rs) 200 /\
    results rs =
    map (make_entry rt0 PNone)
      (filter (fun nb => Qle_bool (SIMILARITY_THRESHOLD cfg2)
                           (normalize_similarity (nb_distance nb)))
         colored_candidates).
Proof.
  exact (closest_first_order_is_kept rt0 cfg2 env0 (answering colored_candidates)
           req_plain vec2 10 PNone (Some [Some colored_candidates])
           (req_plain_passes cfg2 eq_refl) eq_refl eq_refl
           colored_candidates_closest_first).
Defined.


(* ================================================================== *)
(** ** [http_vector_search] and [find_similar_products] *)
(* ================================================================== *)

Section HttpVectorSearch.

Variable rt : Runtime.
Variable vcfg : VectorSearch.Config.
Variable svc : service.

Lemma collect_neighbors_none (nbs : list neighbor) :
  fold_left (VectorSearch.add_neighbor rt) nbs None = None.
Proof. induction nbs as [|nb nbs IH]; [reflexivity | exact IH]. Qed.

Lemma collect_neighbors_fails (nbs : list neighbor) (acc : list VectorSearch.entry) :
  Exists (distance_fails rt) nbs ->
  fold_left (VectorSearch.add_neighbor rt) nbs (Some acc) = None.
Proof.
  intros H. revert acc. induction H as [nb nbs (Hid & Hd & Hf) | nb nbs _ IH]; intros acc.
  - cbn [fold_left]. unfold VectorSearch.add_neighbor at 2.
    unfold has_id in Hid. apply negb_true_iff in Hid. rewrite Hid, Hd, Hf. cbn [negb].
    apply collect_neighbors_none.
  - cbn [fold_left].
    destruct (VectorSearch.add_neighbor rt (Some acc) nb) as [acc'|];
      [apply IH | apply collect_neighbors_none].
Qed.

(** The request gets past the validation of [http_vector_search] and
    the query is sent with the vector [fv'] and the count [k]. *)
Lemma http_accepts (req : request) (rj : dict) (l : list pyval) (k : Z) (fv' : pyval) :
  String.eqb (req_method req) "OPTIONS" = false ->
  req_json req = Some rj ->
  list_nonempty rj = true ->
  dict_get rj "feature_vector" = PList l ->
  List.length l = 1408%nat ->
  py_int rt (dict_get_default rj "neighbor_count"
               (PNum (inject_Z (VectorSearch.DEFAULT_NEIGHBOR_COUNT vcfg)))) = Some k ->
  (if truthy (dict_get_default rj "normalize" (PBool false))
   then l2_normalize rt (PList l) else Some (PList l)) = Some fv' ->
  VectorSearch.http_vector_search rt vcfg svc req =
  match svc fv' k false with
  | UpPermissionDenied msg | UpError msg =>
      ((VectorSearch.BodyError "Internal server error"
          (Some (VectorSearch.ExnUpstream msg)), 500%Z), [FindNeighbors fv' k false])
  | UpResponse None | UpResponse (Some (None :: _)) =>
      ((VectorSearch.BodyError "Internal server error"
          (Some VectorSearch.ExnAttribute), 500%Z), [FindNeighbors fv' k false])
  | UpResponse (Some []) =>
      ((VectorSearch.BodyResults [], 200%Z), [FindNeighbors fv' k false])
  | UpResponse (Some (Some nbs :: _)) =>
      match VectorSearch.collect_neighbors rt nbs with
      | Some res => ((VectorSearch.BodyResults res, 200%Z), [FindNeighbors fv' k false])
      | None =>
          ((VectorSearch.BodyError "Internal server error"
              (Some VectorSearch.ExnConversion), 500%Z), [FindNeighbors fv' k false])
      end
  end.
Proof.
  intros Hm Hj Hne Hfv Hlen Hk Hn.
  unfold VectorSearch.http_vector_search. rewrite Hm, Hj, Hne, Hfv.
  cbn [negb is_none isinstance_list py_len]. rewrite Hlen. cbn [Nat.eqb negb].
  change (Nat.eqb 1408 1408) with true. cbn [negb]. rewrite Hk.
  unfold VectorSearch.find_similar_products. rewrite Hn.
  destruct (svc fv' k false) as [m|m|[[|[nbs|] rest]|]]; try reflexivity.
  destruct (VectorSearch.collect_neighbors rt nbs); reflexivity.
Qed.

(** X15. On a valid request, [http_vector_search] queries the match
    service once, with the requested neighbor count as it is (no
    clamping) and without full datapoints, and replies 200 with one
    entry, in order, for each neighbor of the first group that has an
    id, provided every distance converts to a float; an empty response
    gives 200 with no entry. *)
Theorem http_search_success (req : request) (rj : dict) (l : list pyval) (k : Z)
    (fv' : pyval) (groups : list (option (list neighbor))) :
  String.eqb (req_method req) "OPTIONS" = false ->
  req_json req = Some rj ->
  list_nonempty rj = true ->
  dict_get rj "feature_vector" = PList l ->
  List.length l = 1408%nat ->
  py_int rt (dict_get_default rj "neighbor_count"
               (PNum (inject_Z (VectorSearch.DEFAULT_NEIGHBOR_COUNT vcfg)))) = Some k ->
  (if truthy (dict_get_default rj "normalize" (PBool false))
   then l2_normalize rt (PList l) else Some (PList l)) = Some fv' ->
  svc fv' k false = UpResponse (Some groups) ->
  (forall rest, groups <> None :: rest) ->
  Forall (distance_converts rt) (raw_candidates (Some groups)) ->
  VectorSearch.http_vector_search rt vcfg svc req =
  ((VectorSearch.BodyResults
      (map (entry_of rt) (filter has_id (raw_candidates (Some groups)))), 200%Z),
   [FindNeighbors fv' k false]).
Proof.
  intros Hm Hj Hne Hfv Hlen Hk Hn Hsvc Hg Hd.
  rewrite (http_accepts req rj l k fv' Hm Hj Hne Hfv Hlen Hk Hn), Hsvc.
  destruct groups as [|[nbs|] rest]; [reflexivity | | exfalso; exact (Hg rest eq_refl)].
  cbn [raw_candidates] in *. unfold VectorSearch.collect_neighbors.
  rewrite (collect_neighbors_acc rt nbs [] Hd). reflexivity.
Qed.

(** X16. On a valid request, one neighbor with an id whose distance
    [float()] rejects fails the whole query of [http_vector_search]:
    the reply is 500 and carries no entry, not even for the neighbors
    listed before it. *)
Theorem http_search_bad_distance (req : request) (rj : dict) (l : list pyval) (k : Z)
    (fv' : pyval) (nbs : list neighbor) (rest : list (option (list neighbor))) :
  String.eqb (req_method req) "OPTIONS" = false ->
  req_json req = Some rj ->
  list_nonempty rj = true ->
  dict_get rj "feature_vector" = PList l ->
  List.length l = 1408%nat ->
  py_int rt (dict_get_default rj "neighbor_count"
               (PNum (inject_Z (VectorSearch.DEFAULT_NEIGHBOR_COUNT vcfg)))) = Some k ->
  (if truthy (dict_get_default rj "normalize" (PBool false))
   then l2_normalize rt (PList l) else Some (PList l)) = Some fv' ->
  svc fv' k false = UpResponse (Some (Some nbs :: rest)) ->
  Exists (distance_fails rt) nbs ->
  VectorSearch.http_vector_search rt vcfg svc req =
  ((VectorSearch.BodyError "Internal server error" (Some VectorSearch.ExnConversion), 500%Z),
   [FindNeighbors fv' k false]).
Proof.
  intros Hm Hj Hne Hfv Hlen Hk Hn Hsvc Hbad.
  rewrite (http_accepts req rj l k fv' Hm Hj Hne Hfv Hlen Hk Hn), Hsvc.
  unfold VectorSearch.collect_neighbors.
  rewrite (collect_neighbors_fails nbs [] Hbad). reflexivity.
Qed.

(** X17. Whatever the request, [http_vector_search] replies with status
    204, 400, 500 or 200 and queries the match service at most once:
    exactly once before a 200, never before a 204 or a 400. *)
Theorem http_queries_at_most_once (req : request) :
  let status := snd (fst (VectorSearch.http_vector_search rt vcfg svc req)) in
  let calls := snd (VectorSearch.http_vector_search rt vcfg svc req) in
  (status = 204 \/ status = 400 \/ status = 500 \/ status = 200)%Z /\
  (List.length calls <= 1)%nat /\
  (status = 200%Z -> List.length calls = 1%nat) /\
  (status = 204%Z \/ status = 400%Z -> calls = []).
Proof.
  cbv zeta. unfold VectorSearch.http_vector_search, VectorSearch.bad_request.
  destruct (String.eqb (req_method req) "OPTIONS");
    [cbn; repeat split; auto; discriminate|].
  destruct (req_json req) as [rj|]; [|cbn; repeat split; auto; discriminate].
  destruct (negb (list_nonempty rj)); [cbn; repeat split; auto; discriminate|].
  destruct (is_none _); [cbn; repeat split; auto; discriminate|].
  destruct (negb (isinstance_list _)); [cbn; repeat split; auto; discriminate|].
  destruct (negb _); [cbn; repeat split; auto; discriminate|].
  destruct (py_int _ _) as [k|];
    [|cbn; repeat split; auto; try discriminate; intros [H|H]; discriminate].
  unfold VectorSearch.find_similar_products.
  destruct (if truthy _ then _ else _) as [fv'|];
    [|cbn; repeat split; auto; try discriminate; intros [H|H]; discriminate].
  destruct (svc fv' k false) as [m|m|[[|[nbs|] rest]|]];
    try (cbn; repeat split; auto; try discriminate; intros [H|H]; discriminate).
  destruct (VectorSearch.collect_neighbors rt nbs);
    cbn; repeat split; auto; try discriminate; intros [H|H]; discriminate.
Qed.

End HttpVectorSearch.

Lemma http_search_success_witness :
  VectorSearch.http_vector_search rt0 vcfg0
    (answering [plain_neighbor PNone (PNum 0); plain_neighbor (PStr "x") (PNum (1 # 2))])
    (post [("feature_vector", vec1408); ("neighbor_count", PNum 1000)]) =
  ((VectorSearch.BodyResults
      (map (entry_of rt0)
         (filter has_id
            (raw_candidates
               (Some [Some [plain_neighbor PNone (PNum 0);
                            plain_neighbor (PStr "x") (PNum (1 # 2))]])))), 200%Z),
   [FindNeighbors vec1408 1000 false]).
Proof.
  apply (http_search_success rt0 vcfg0
           (answering [plain_neighbor PNone (PNum 0); plain_neighbor (PStr "x") (PNum (1 # 2))])
           (post [("feature_vector", vec1408); ("neighbor_count", PNum 1000)])
           [("feature_vector", vec1408); ("neighbor_count", PNum 1000)]
           (repeat (PNum 0) 1408) 1000 vec1408).
  - reflexivity.
  - reflexivity.
  - reflexivity.
  - reflexivity.
  - vm_compute. reflexivity.
  - reflexivity.
  - reflexivity.
  - reflexivity.
  - intros rest H. discriminate H.
  - repeat (apply Forall_cons; [right; eexists; reflexivity|]). apply Forall_nil.
Defined.

Lemma http_search_bad_distance_witness :
  VectorSearch.http_vector_search rt0 vcfg0
    (answering [plain_neighbor (PStr "x") (PNum (1 # 2));
                plain_neighbor (PStr "y") (PStr "far")])
    (post [("feature_vector", vec1408)]) =
  ((VectorSearch.BodyError "Internal server error" (Some VectorSearch.ExnConversion), 500%Z),
   [FindNeighbors vec1408 10 false]).
Proof.
  apply (http_search_bad_distance rt0 vcfg0
           (answering [plain_neighbor (PStr "x") (PNum (1 # 2));
                       plain_neighbor (PStr "y") (PStr "far")])
           (post [("feature_vector", vec1408)])
           [("feature_vector", vec1408)]
           (repeat (PNum 0) 1408) 10 vec1408
           [plain_neighbor (PStr "x") (PNum (1 # 2)); plain_neighbor (PStr "y") (PStr "far")]
           []).
  - reflexivity.
  - reflexivity.
  - reflexivity.
  - reflexivity.
  - vm_compute. reflexivity.
  - reflexivity.
  - reflexivity.
  - reflexivity.
  - apply Exists_cons_tl, Exists_cons_hd. repeat split; reflexivity.
Defined.

(* ================================================================== *)
(** ** The shared client *)
(* ================================================================== *)

Section SharedClient.

Variable client : Type.
Variable MatchServiceClient : nat -> option client.

Lemma call_times_initialised (c : client) (n : nat) (g : Client.globals client) :
  Client._vector_search_client client g = Some c ->
  Client.call_times client MatchServiceClient n g = (repeat (Some c) n, g).
Proof.
  intros H. induction n as [|n IH]; [reflexivity|].
  cbn [Client.call_times repeat]. unfold Client.get_vector_search_client.
  rewrite H, IH. reflexivity.
Qed.

(** X18. [get_vector_search_client] builds the client at most once: when
    a call returns a client, it is stored, and any number of later calls
    return that same client without invoking the constructor again.
    When the constructor raises, nothing is stored, so the next call
    invokes it again. *)
Theorem client_is_built_once (g : Client.globals client) :
  match Client.get_vector_search_client client MatchServiceClient g with
  | (Some c, g') =>
      Client._vector_search_client client g' = Some c /\
      (Client.constructions client g' <= S (Client.constructions client g))%nat /\
      forall n : nat,
        Client.call_times client MatchServiceClient n g' = (repeat (Some c) n, g')
  | (None, g') =>
      Client._vector_search_client client g = None /\
      Client._vector_search_client client g' = None /\
      Client.constructions client g' = S (Client.constructions client g)
  end.
Proof.
  unfold Client.get_vector_search_client.
  destruct (Client._vector_search_client client g) as [c|] eqn:E.
  - split; [exact E|]. split; [apply Nat.le_succ_diag_r|].
    intros n. apply call_times_initialised, E.
  - destruct (MatchServiceClient (Client.constructions client g)) as [c|].
    + split; [reflexivity|]. split; [apply Nat.le_refl|].
      intros n. apply call_times_initialised. reflexivity.
    + repeat split; reflexivity.
Qed.

End SharedClient.

(** A constructor that raises at its first invocation only: three calls
    from the initial state. *)
Example client_after_one_failure :
  Client.call_times nat (fun n => if Nat.eqb n 0 then None else Some n) 3
    (Client.initial nat) =
  ([None; Some 1%nat; Some 1%nat],
   {| Client._vector_search_client := Some 1%nat; Client.constructions := 2 |}).
Proof. reflexivity. Qed.

(* ================================================================== *)
(** ** Further edge behaviour *)
(* ================================================================== *)

Section Edges.

Variable rt : Runtime.
Variable cfg : Config.
Variable env : Env.
Variable svc : service.

Local Open Scope Q_scope.




End Edges.

Section Defaults.

Variable rt : Runtime.
Variable vcfg : VectorSearch.Config.
Variable cfg : Config.
Variable env : Env.
Variable svc : service.

Lemma dict_get_default_absent (d : dict) (k : string) (dflt : pyval) :
  dict_has d k = false -> dict_get_default d k dflt = dflt.
Proof.
  unfold dict_has. induction d as [|[k0 v0] d IH]; cbn; [reflexivity|].
  rewrite (String.eqb_sym k k0). destruct (String.eqb k0 k); [discriminate|]. exact IH.
Qed.

Lemma py_int_of_int (n : Z) : py_int rt (PNum (inject_Z n)) = Some n.
Proof. cbn. rewrite Z.quot_1_r. reflexivity. Qed.

(** X21. When the body names no neighbor count, [vector_search_proxy]
    asks the match service for [max(1, min(10, MAX_NEIGHBORS))]
    neighbors, and [http_vector_search] for [DEFAULT_NEIGHBOR_COUNT]
    neighbors; without a ["normalize"] key the latter sends the vector
    as received. *)
Theorem default_neighbor_counts :
  (forall (req : request) (rj : dict) (n : nat),
      String.eqb (req_method req) "OPTIONS" = false ->
      req_json req = Some rj ->
      dict_has rj "neighbor_count" = false ->
      truthy (dict_get rj "feature_vector") = true ->
      py_len (dict_get rj "feature_vector") = Some n ->
      Z.of_nat n = EXPECTED_DIMENSIONS cfg ->
      snd (vector_search_proxy rt cfg env svc req) =
      [FindNeighbors (dict_get rj "feature_vector")
         (Z.max 1 (Z.min 10 (MAX_NEIGHBORS cfg))) (RETURN_FULL_DATAPOINT cfg)]) /\
  (forall (req : request) (rj : dict) (l : list pyval),
      String.eqb (req_method req) "OPTIONS" = false ->
      req_json req = Some rj ->
      dict_has rj "neighbor_count" = false ->
      dict_has rj "normalize" = false ->
      dict_get rj "feature_vector" = PList l ->
      List.length l = 1408%nat ->
      snd (VectorSearch.http_vector_search rt vcfg svc req) =
      [FindNeighbors (PList l) (VectorSearch.DEFAULT_NEIGHBOR_COUNT vcfg) false]).
Proof.
  split.
  - intros req rj n Hm Hj Hnc Ht Hlen Hn.
    assert (Hne : list_nonempty rj = true).
    { destruct rj; [discriminate Ht | reflexivity]. }
    assert (Hv : passes_validation rt cfg req (dict_get rj "feature_vector") 10
                   (dict_get rj "color")).
    { split; [exact Hm|]. exists rj. repeat split; auto.
      - exists n. auto.
      - rewrite (dict_get_default_absent rj _ _ Hnc). reflexivity. }
    rewrite (proxy_accepts rt cfg env svc req _ _ _ Hv).
    destruct (search_and_rank_shape rt cfg env svc (dict_get rj "feature_vector") 10
                (dict_get rj "color")) as (b & st & E & _).
    rewrite E. reflexivity.
  - intros req rj l Hm Hj Hnc Hnz Hfv Hlen.
    assert (Hne : list_nonempty rj = true).
    { destruct rj; [discriminate Hfv | reflexivity]. }
    rewrite (http_accepts rt vcfg svc req rj l (VectorSearch.DEFAULT_NEIGHBOR_COUNT vcfg)
               (PList l) Hm Hj Hne Hfv Hlen).
    + destruct (svc _ _ _) as [m|m|[[|[nbs|] rest]|]]; try reflexivity.
      destruct (VectorSearch.collect_neighbors rt nbs); reflexivity.
    + rewrite (dict_get_default_absent rj _ _ Hnc). apply py_int_of_int.
    + rewrite (dict_get_default_absent rj _ _ Hnz). reflexivity.
Qed.

End Defaults.
